(** * Vocabulary tracker: the data transformer of [lib/dataTransformer.js]

    A shallow embedding of the row-to-hierarchy transformer
    ([transformVocabData], [parseTopics], [parseWord], [calculateStatistics],
    [calculateTopicStatistics] and their helpers [getCell], [isEmptyRow],
    [isHeaderRow]) together with the properties its specification states,
    and of the pure parts of its callers in [server.js] (the sheet names of
    a request, the cache-or-fetch decisions of the data route,
    [combineSheetData], [isAuthenticated] and [shouldRefreshToken]).

    Modelling conventions.
    - A JavaScript string is a [string] whose characters are the code units
      U+0000..U+00FF; [trim] and [toLowerCase] follow ECMAScript on that range.
    - A spreadsheet cell, and any other scalar a field may hold, is a [JsVal];
      a property that is absent reads as [JUndefined], as it does in JS.
      Numbers are the integer-valued ones, rendered in decimal.
    - Array indices, row numbers and counters are [nat]: the source only
      counts upwards from zero, far below the range where doubles round.
    - [forEach] and the [for] loop are folds that thread the mutated object
      ([stats], or the pair of [topics] and [currentTopic]) explicitly. *)

From Stdlib Require Import List Bool Arith Lia ZArith String Ascii.
From Stdlib Require Import Permutation DecimalString Sorted.
Import ListNotations.
Open Scope string_scope.
Open Scope list_scope.
Open Scope nat_scope.

(** ** JavaScript strings *)

Module Js.

(** ECMAScript [WhiteSpace] and [LineTerminator] code points below U+0100:
    TAB, LF, VT, FF, CR, SP and NBSP. *)
Definition isWhiteSpace (c : ascii) : bool :=
  let n := nat_of_ascii c in
  ((n =? 9) || (n =? 10) || (n =? 11) || (n =? 12) || (n =? 13)
   || (n =? 32) || (n =? 160))%nat.

(** [String.prototype.toLowerCase] on one code unit: A-Z, and the Latin-1
    capitals U+00C0..U+00DE except the multiplication sign U+00D7. *)
Definition lowerChar (c : ascii) : ascii :=
  let n := nat_of_ascii c in
  if (((65 <=? n) && (n <=? 90))
      || ((192 <=? n) && (n <=? 222) && negb (n =? 215)))%nat
  then ascii_of_nat (n + 32)
  else c.

Fixpoint toLowerCase (s : string) : string :=
  match s with
  | EmptyString => EmptyString
  | String c s' => String (lowerChar c) (toLowerCase s')
  end.

Fixpoint trimStart (s : string) : string :=
  match s with
  | EmptyString => EmptyString
  | String c s' => if isWhiteSpace c then trimStart s' else s
  end.

Fixpoint trimEnd (s : string) : string :=
  match s with
  | EmptyString => EmptyString
  | String c s' =>
      match trimEnd s' with
      | EmptyString => if isWhiteSpace c then EmptyString else String c EmptyString
      | r => String c r
      end
  end.

(** [String.prototype.trim]. *)
Definition trim (s : string) : string := trimEnd (trimStart s).

(** A string is falsy exactly when it is empty. *)
Definition truthyStr (s : string) : bool := negb (String.eqb s "").

(** Scalars: what a cell of the grid, a flag or a metadata field can hold. *)
Inductive JsVal : Type :=
| JUndefined
| JNull
| JBool (b : bool)
| JNum (n : Z)
| JStr (s : string).

(** [String(v)] / [v.toString()] on a scalar. *)
Definition toString (v : JsVal) : string :=
  match v with
  | JUndefined => "undefined"
  | JNull => "null"
  | JBool true => "true"
  | JBool false => "false"
  | JNum n => NilZero.string_of_int (Z.to_int n)
  | JStr s => s
  end.

(** JS truthiness of a scalar. *)
Definition truthy (v : JsVal) : bool :=
  match v with
  | JUndefined | JNull => false
  | JBool b => b
  | JNum n => negb (n =? 0)%Z
  | JStr s => truthyStr s
  end.

Definition isNull (v : JsVal) : bool :=
  match v with JNull => true | _ => false end.

Definition isUndefined (v : JsVal) : bool :=
  match v with JUndefined => true | _ => false end.

End Js.
Import Js.


(** ** Data model *)

(** A row of the grid: an array of cells, or [None] for a row that is
    [null] or [undefined] (so is [rows[0]] of an empty grid). *)
Definition Row : Type := option (list JsVal).

(** The object literal returned by [parseWord].  [flag] is the one field the
    aggregators read back, through [(word.flag || '').toString()], so it is
    kept as a scalar; [parseWord] always stores a string in it. *)
Record WordRecord : Type := {
  rowNumber : nat;
  order : string;
  flag : JsVal;
  word : string;
  partOfSpeech : string;
  pronunciation : string;
  meaning : string;
  exampleSentence : string;
  synonyms : string;
  dayOfWeek : string;
  date : string
}.

Record ByFlag : Type := {
  new : nat;
  known : nat;
  forgotten : nat;
  learned : nat
}.

(** Worksheet-level statistics, the result of [calculateStatistics]. *)
Record Statistics : Type := {
  totalTopics : nat;
  totalWords : nat;
  byFlag : ByFlag
}.

(** Topic-level statistics, the result of [calculateTopicStatistics]: the
    same object without the [totalTopics] property. *)
Record TopicStatistics : Type := {
  topicTotalWords : nat;
  topicByFlag : ByFlag
}.

(** A topic; [statistics] is [None] until [transformVocabData] assigns it. *)
Record Topic : Type := {
  name : string;
  startRow : nat;
  words : list WordRecord;
  statistics : option TopicStatistics
}.

(** ** Cell helpers *)

(** [getCell(row, index)]. *)
Definition getCell (row : Row) (index : nat) : string :=
  match row with
  | None => ""
  | Some cells =>
      if List.length cells <=? index then ""
      else
        let value := nth index cells JUndefined in
        if negb (isNull value) && negb (isUndefined value)
        then trim (toString value)
        else ""
  end.

(** [isEmptyRow(row)]. *)
Definition isEmptyRow (row : Row) : bool :=
  match row with
  | None => true
  | Some cells =>
      if List.length cells =? 0 then true
      else
        forallb
          (fun cell =>
             isNull cell || isUndefined cell
             || String.eqb (trim (toString cell)) "")
          cells
  end.

(** [isHeaderRow(row)]; [String(...)] of the string [getCell] returns is
    that string. *)
Definition isHeaderRow (row : Row) : bool :=
  match row with
  | None => false
  | Some cells =>
      if List.length cells =? 0 then false
      else
        let firstCell := toLowerCase (getCell row 0) in
        let secondCell := toLowerCase (getCell row 1) in
        String.eqb firstCell "order" || String.eqb secondCell "topic"
        || String.eqb secondCell "session"
  end.

(** ** Word record extractor *)

(** [parseWord(row, rowNumber)]; [None] is the [null] it returns. *)
Definition parseWord (row : Row) (rowNumber : nat) : option WordRecord :=
  let word := getCell row 3 in
  if negb (truthyStr word) || String.eqb (trim word) "" then None
  else
    Some {| rowNumber := rowNumber;
            order := getCell row 0;
            flag := JStr (getCell row 2);
            word := trim word;
            partOfSpeech := getCell row 4;
            pronunciation := getCell row 5;
            meaning := getCell row 6;
            exampleSentence := getCell row 7;
            synonyms := getCell row 8;
            dayOfWeek := getCell row 9;
            date := getCell row 10 |}.

(** ** Row grouping parser *)

(** The loop state of [parseTopics]: the [topics] array and [currentTopic]. *)
Definition ParseState : Type := (list Topic * option Topic)%type.

(** [if (word && word.word) currentTopic.words.push(word)]. *)
Definition pushWord (currentTopic : Topic) (w : option WordRecord) : Topic :=
  match w with
  | Some wr =>
      if truthyStr (word wr)
      then {| name := name currentTopic;
              startRow := startRow currentTopic;
              words := words currentTopic ++ [wr];
              statistics := statistics currentTopic |}
      else currentTopic
  | None => currentTopic
  end.

(** [if (currentTopic) topics.push(currentTopic)]. *)
Definition pushTopic (topics : list Topic) (currentTopic : option Topic)
  : list Topic :=
  match currentTopic with
  | Some t => topics ++ [t]
  | None => topics
  end.

(** One iteration of the [for] loop of [parseTopics], at index [i]. *)
Definition parseRow (i : nat) (row : Row) (st : ParseState) : ParseState :=
  let '(topics, currentTopic) := st in
  if isEmptyRow row then st
  else
    let topicName := getCell row 1 in
    if truthyStr topicName && negb (String.eqb (trim topicName) "") then
      let topics := pushTopic topics currentTopic in
      let currentTopic :=
        {| name := trim topicName; startRow := i + 1; words := [];
           statistics := None |} in
      (topics, Some (pushWord currentTopic (parseWord row (i + 1))))
    else
      match currentTopic with
      | Some t => (topics, Some (pushWord t (parseWord row (i + 1))))
      | None =>
          let currentTopic :=
            {| name := "Uncategorized"; startRow := i + 1; words := [];
               statistics := None |} in
          (topics, Some (pushWord currentTopic (parseWord row (i + 1))))
      end.

(** The [for] loop from index [i] over the remaining rows. *)
Fixpoint parseLoop (i : nat) (rows : list Row) (st : ParseState)
  : ParseState :=
  match rows with
  | [] => st
  | row :: rest => parseLoop (S i) rest (parseRow i row st)
  end.

(** The start offset: 1 when [rows[0]] looks like a header, else 0. *)
Definition headerOffset (rows : list Row) : nat :=
  if isHeaderRow (hd None rows) then 1 else 0.

(** [parseTopics(rows)]. *)
Definition parseTopics (rows : list Row) : list Topic :=
  let startRow := headerOffset rows in
  let '(topics, currentTopic) :=
    parseLoop startRow (skipn startRow rows) ([], None) in
  pushTopic topics currentTopic.

(** ** Statistics aggregator *)

Definition zeroByFlag : ByFlag :=
  {| new := 0; known := 0; forgotten := 0; learned := 0 |}.

(** [(word.flag || '').toString().toLowerCase().trim()]. *)
Definition flagKey (f : JsVal) : string :=
  trim (toLowerCase (toString (if truthy f then f else JStr ""))).

(** The callback of [topic.words.forEach] in [calculateStatistics]. *)
Definition statsWord (stats : Statistics) (word : WordRecord) : Statistics :=
  let flag := flagKey (flag word) in
  let b := byFlag stats in
  if String.eqb flag "n" then
    {| totalTopics := totalTopics stats;
       totalWords := totalWords stats;
       byFlag := {| new := new b + 1; known := known b;
                    forgotten := forgotten b; learned := learned b |} |}
  else if String.eqb flag "y" then
    {| totalTopics := totalTopics stats;
       totalWords := totalWords stats;
       byFlag := {| new := new b; known := known b + 1;
                    forgotten := forgotten b; learned := learned b |} |}
  else if String.eqb flag "?" then
    {| totalTopics := totalTopics stats;
       totalWords := totalWords stats;
       byFlag := {| new := new b; known := known b;
                    forgotten := forgotten b + 1; learned := learned b |} |}
  else if String.eqb flag "ok" then
    {| totalTopics := totalTopics stats;
       totalWords := totalWords stats;
       byFlag := {| new := new b; known := known b;
                    forgotten := forgotten b; learned := learned b + 1 |} |}
  else stats.

(** The callback of [topics.forEach] in [calculateStatistics]. *)
Definition statsTopic (stats : Statistics) (topic : Topic) : Statistics :=
  let stats :=
    {| totalTopics := totalTopics stats;
       totalWords := totalWords stats + List.length (words topic);
       byFlag := byFlag stats |} in
  fold_left statsWord (words topic) stats.

(** [calculateStatistics(topics)]. *)
Definition calculateStatistics (topics : list Topic) : Statistics :=
  fold_left statsTopic topics
    {| totalTopics := List.length topics; totalWords := 0;
       byFlag := zeroByFlag |}.

(** The callback of [topic.words.forEach] in [calculateTopicStatistics]. *)
Definition topicStatsWord (stats : TopicStatistics) (word : WordRecord)
  : TopicStatistics :=
  let flag := flagKey (flag word) in
  let b := topicByFlag stats in
  if String.eqb flag "n" then
    {| topicTotalWords := topicTotalWords stats;
       topicByFlag := {| new := new b + 1; known := known b;
                         forgotten := forgotten b; learned := learned b |} |}
  else if String.eqb flag "y" then
    {| topicTotalWords := topicTotalWords stats;
       topicByFlag := {| new := new b; known := known b + 1;
                         forgotten := forgotten b; learned := learned b |} |}
  else if String.eqb flag "?" then
    {| topicTotalWords := topicTotalWords stats;
       topicByFlag := {| new := new b; known := known b;
                         forgotten := forgotten b + 1;
                         learned := learned b |} |}
  else if String.eqb flag "ok" then
    {| topicTotalWords := topicTotalWords stats;
       topicByFlag := {| new := new b; known := known b;
                         forgotten := forgotten b;
                         learned := learned b + 1 |} |}
  else stats.

(** The callback of [topics.forEach] in [calculateTopicStatistics]. *)
Definition topicStatsTopic (stats : TopicStatistics) (topic : Topic)
  : TopicStatistics :=
  let stats :=
    {| topicTotalWords := topicTotalWords stats + List.length (words topic);
       topicByFlag := topicByFlag stats |} in
  fold_left topicStatsWord (words topic) stats.

(** [calculateTopicStatistics(topics)]. *)
Definition calculateTopicStatistics (topics : list Topic) : TopicStatistics :=
  fold_left topicStatsTopic topics
    {| topicTotalWords := 0; topicByFlag := zeroByFlag |}.

(** ** Top-level orchestration *)

(** A worksheet of the raw payload.  [ws_values] is [None] when the property
    is absent or [null]; [ws_error] is [JUndefined] when there is none. *)
Record Worksheet : Type := {
  ws_name : JsVal;
  ws_range : JsVal;
  ws_rowCount : JsVal;
  ws_columnCount : JsVal;
  ws_values : option (list Row);
  ws_error : JsVal
}.

(** The raw payload; [worksheets] is [None] when the property is absent. *)
Record ExcelData : Type := {
  fileName : JsVal;
  fileSize : JsVal;
  worksheets : option (list Worksheet);
  _cached : JsVal;
  _cachedAt : JsVal;
  _fetchedAt : JsVal
}.

Record StructuredWorksheet : Type := {
  sw_name : JsVal;
  sw_range : JsVal;
  sw_rowCount : JsVal;
  sw_columnCount : JsVal;
  sw_topics : list Topic;
  sw_statistics : Statistics
}.

(** An element of [result.worksheets]: the input worksheet object itself,
    or a freshly built structured worksheet. *)
Inductive OutWorksheet : Type :=
| Untouched (w : Worksheet)
| Structured (sw : StructuredWorksheet).

(** The [result] object; a metadata field never assigned is [JUndefined]. *)
Record StructuredDocument : Type := {
  out_fileName : JsVal;
  out_fileSize : JsVal;
  out_worksheets : list OutWorksheet;
  out_cached : JsVal;
  out_cachedAt : JsVal;
  out_fetchedAt : JsVal
}.

(** What [transformVocabData] returns: its argument, or a new document. *)
Inductive Output : Type :=
| Same (excelData : option ExcelData)
| Document (result : StructuredDocument).

(** [topic.statistics = calculateTopicStatistics([topic])]. *)
Definition setStatistics (topic : Topic) : Topic :=
  {| name := name topic; startRow := startRow topic; words := words topic;
     statistics := Some (calculateTopicStatistics [topic]) |}.

(** The body of the [forEach] over [excelData.worksheets]: what is pushed
    to [result.worksheets] for one worksheet. *)
Definition transformWorksheet (worksheet : Worksheet) : OutWorksheet :=
  let skip :=
    truthy (ws_error worksheet)
    || match ws_values worksheet with
       | None => true
       | Some values => List.length values =? 0
       end in
  if skip then Untouched worksheet
  else
    let values := match ws_values worksheet with
                  | Some values => values | None => [] end in
    let topics := parseTopics values in
    let stats := calculateStatistics topics in
    let topics :=
      if 0 <? List.length topics then map setStatistics topics else topics in
    Structured {| sw_name := ws_name worksheet;
                  sw_range := ws_range worksheet;
                  sw_rowCount := ws_rowCount worksheet;
                  sw_columnCount := ws_columnCount worksheet;
                  sw_topics := topics;
                  sw_statistics := stats |}.

(** [transformVocabData(excelData)]; [None] is an absent argument. *)
Definition transformVocabData (excelData : option ExcelData) : Output :=
  match excelData with
  | None => Same excelData
  | Some d =>
      match worksheets d with
      | None => Same excelData
      | Some wss =>
          if List.length wss =? 0 then Same excelData
          else
            let pushed :=
              fold_left (fun acc worksheet => acc ++ [transformWorksheet worksheet])
                        wss [] in
            Document
              {| out_fileName := fileName d;
                 out_fileSize := fileSize d;
                 out_worksheets := pushed;
                 out_cached :=
                   if negb (isUndefined (_cached d)) then _cached d
                   else JUndefined;
                 out_cachedAt :=
                   if truthy (_cachedAt d) then _cachedAt d else JUndefined;
                 out_fetchedAt :=
                   if truthy (_fetchedAt d) then _fetchedAt d else JUndefined |}
      end
  end.

(** * The callers in [server.js]

    The pure parts of the data route and of its helpers.  What they take
    from the outside (the query string, the cache, the clock, the parsing
    of date strings) is an argument. *)

(** ** Sheet names of a request *)

(** [s.split(',')]: the pieces between the commas, at least one. *)
Fixpoint splitComma (s : string) : list string :=
  match s with
  | EmptyString => [EmptyString]
  | String c s' =>
      if Ascii.eqb c ","%char then EmptyString :: splitComma s'
      else
        match splitComma s' with
        | piece :: rest => String c piece :: rest
        | [] => [String c EmptyString]
        end
  end.

(** [names.join(sep)] on an array of strings. *)
Fixpoint join (sep : string) (names : list string) : string :=
  match names with
  | [] => EmptyString
  | [n] => n
  | n :: rest => (n ++ sep ++ join sep rest)%string
  end.

(** The [sheetNames] of the data route:
    [sheetNameParam ? sheetNameParam.split(',').map(name => name.trim())
                        .filter(name => name) : ['']]. *)
Definition sheetNamesOf (sheetNameParam : string) : list string :=
  if truthyStr sheetNameParam
  then filter truthyStr (map trim (splitComma sheetNameParam))
  else [""].

(** [sheetNames.join(', ')], the string the route saves in the state and
    reads back as the default [sheetNameParam] of later requests. *)
Definition sheetNamesString (sheetNames : list string) : string :=
  join ", " sheetNames.

(** The string has no comma. *)
Fixpoint noComma (s : string) : bool :=
  match s with
  | EmptyString => true
  | String c s' => negb (Ascii.eqb c ","%char) && noComma s'
  end.

(** The string is made of commas and whitespace only. *)
Fixpoint onlySeparators (s : string) : bool :=
  match s with
  | EmptyString => true
  | String c s' =>
      (Ascii.eqb c ","%char || isWhiteSpace c) && onlySeparators s'
  end.

(** A sheet name as the route keeps it: not empty, trimmed, no comma. *)
Definition cleanName (n : string) : Prop :=
  n <> "" /\ trim n = n /\ noComma n = true.

(** ** Token validity *)

(** The two fields of [serverState] the checks read. *)
Record ServerState : Type := {
  st_token : JsVal;
  st_expiresOn : JsVal
}.

(** Both checks take the clock, [now.getTime()] in milliseconds, and
    [dateValue], the time value of [new Date(v)], which is [None] for an
    invalid date (every comparison with it is false). *)

(** [isAuthenticated()]. *)
Definition isAuthenticated (dateValue : JsVal -> option Z) (now : Z)
    (serverState : ServerState) : bool :=
  if negb (truthy (st_token serverState))
     || negb (truthy (st_expiresOn serverState))
  then false
  else
    let bufferMinutes := 5%Z in
    match dateValue (st_expiresOn serverState) with
    | Some expiresOn => (now + bufferMinutes * 60 * 1000 <? expiresOn)%Z
    | None => false
    end.

(** [shouldRefreshToken()]. *)
Definition shouldRefreshToken (dateValue : JsVal -> option Z) (now : Z)
    (serverState : ServerState) : bool :=
  if negb (truthy (st_token serverState))
     || negb (truthy (st_expiresOn serverState))
  then false
  else
    let refreshBufferMinutes := 10%Z in
    match dateValue (st_expiresOn serverState) with
    | Some expiresOn => (expiresOn <=? now + refreshBufferMinutes * 60 * 1000)%Z
    | None => false
    end.

(** ** Combining the data of several sheets *)

(** What [combineSheetData] reads of one value of [sheetsData]: a cached or
    freshly fetched document, or the [{ error, worksheets: [] }] of a
    failed fetch.  [sd_worksheets] is [None] when the property is absent or
    not an array. *)
Record SheetData : Type := {
  sd_error : JsVal;
  sd_cached : JsVal;
  sd_cachedAt : JsVal;
  sd_worksheets : option (list OutWorksheet)
}.

(** [worksheet.name]. *)
Definition outName (worksheet : OutWorksheet) : JsVal :=
  match worksheet with
  | Untouched w => ws_name w
  | Structured sw => sw_name sw
  end.

(** An element of [combined.worksheets]: the error entry
    [{ name, topics: [], error }], or a copy of a worksheet with its [name]
    replaced and [_sheetSource] added. *)
Inductive CombinedWorksheet : Type :=
| ErrorEntry (entryName : string) (error : JsVal)
| SheetEntry (worksheet : OutWorksheet) (entryName : JsVal)
             (sheetSource : string).

(** The [combined] object; [c_cachedAt] is [JUndefined] when never set. *)
Record Combined : Type := {
  c_worksheets : list CombinedWorksheet;
  c_cached : bool;
  c_fetchedAt : string;
  c_sheets : list string;
  c_cachedAt : JsVal
}.

(** [new Date(a) < new Date(b)]. *)
Definition dateLt (dateValue : JsVal -> option Z) (a b : JsVal) : bool :=
  match dateValue a, dateValue b with
  | Some x, Some y => (x <? y)%Z
  | _, _ => false
  end.

(** The variables the loop of [combineSheetData] updates:
    [combined.worksheets], [hasAnyFresh] and [oldestCache]. *)
Definition CombineState : Type :=
  (list CombinedWorksheet * bool * JsVal)%type.

(** The [map] callback that prefixes a worksheet of the sheet
    [sheetName]. *)
Definition prefixWorksheet (sheetName : string) (worksheet : OutWorksheet)
  : CombinedWorksheet :=
  SheetEntry worksheet
    (if truthyStr sheetName
     then JStr ("[" ++ sheetName ++ "] " ++ toString (outName worksheet))%string
     else outName worksheet)
    (if truthyStr sheetName then sheetName else "default").

(** One iteration of the loop over [Object.entries(sheetsData)]. *)
Definition combineEntry (dateValue : JsVal -> option Z) (st : CombineState)
    (entry : string * SheetData) : CombineState :=
  let '(worksheets, hasAnyFresh, oldestCache) := st in
  let '(sheetName, data) := entry in
  if truthy (sd_error data) then
    (worksheets
       ++ [ErrorEntry ("Error - " ++ sheetName)%string (sd_error data)],
     hasAnyFresh, oldestCache)
  else
    let hasAnyFresh :=
      if negb (truthy (sd_cached data)) then true else hasAnyFresh in
    let oldestCache :=
      if truthy (sd_cachedAt data) then
        if negb (truthy oldestCache)
           || dateLt dateValue (sd_cachedAt data) oldestCache
        then sd_cachedAt data
        else oldestCache
      else oldestCache in
    let worksheets :=
      match sd_worksheets data with
      | Some ws => worksheets ++ map (prefixWorksheet sheetName) ws
      | None => worksheets
      end in
    (worksheets, hasAnyFresh, oldestCache).

(** [combineSheetData(sheetsData)]; [sheetsData] is given by its entries,
    in the order [Object.entries] lists them, and [now] is
    [new Date().toISOString()]. *)
Definition combineSheetData (dateValue : JsVal -> option Z) (now : string)
    (sheetsData : list (string * SheetData)) : Combined :=
  let '(worksheets, hasAnyFresh, oldestCache) :=
    fold_left (combineEntry dateValue) sheetsData ([], false, JNull) in
  let cached := negb hasAnyFresh in
  {| c_worksheets := worksheets;
     c_cached := cached;
     c_fetchedAt := now;
     c_sheets := map fst sheetsData;
     c_cachedAt :=
       if truthy oldestCache && cached then oldestCache else JUndefined |}.

(** ** Cache or fetch: the decisions of the data route *)

(** How the route [/api/sheet/data] answers, before any fetch is made. *)
Inductive RouteDecision : Type :=
| ServeCached (cachedSheets : list (string * SheetData))
| ServeCachedWithMessage (cachedSheets : list (string * SheetData))
| Reject401Missing (missingSheets : list string)
| Reject401Refresh
| FetchSheets (sheetsToFetch : list (option string))
              (cachedSheets : list (string * SheetData)).

(** The loop that sorts the requested sheets into [cachedSheets] and
    [missingSheets]; [cacheLookup] is what [getCachedData] answers for a
    sheet name.  [cachedSheets] is kept as the list of its assignments. *)
Definition sortSheets (forceRefresh : bool)
    (cacheLookup : string -> option SheetData) (sheetNames : list string)
  : list (string * SheetData) * list string :=
  fold_left
    (fun acc sheetName =>
       let '(cachedSheets, missingSheets) := acc in
       match cacheLookup sheetName with
       | Some cachedData =>
           if negb forceRefresh
           then (cachedSheets
                   ++ [(if truthyStr sheetName then sheetName else "default",
                        cachedData)],
                 missingSheets)
           else (cachedSheets, missingSheets ++ [sheetName])
       | None => (cachedSheets, missingSheets ++ [sheetName])
       end)
    sheetNames ([], []).

(** The branches of the route between the cache check and the fetch. *)
Definition decideRoute (forceRefresh authenticated : bool)
    (cacheLookup : string -> option SheetData) (sheetNames : list string)
  : RouteDecision :=
  let '(cachedSheets, missingSheets) :=
    sortSheets forceRefresh cacheLookup sheetNames in
  if (List.length missingSheets =? 0) && negb forceRefresh then
    ServeCached cachedSheets
  else if (forceRefresh || (0 <? List.length missingSheets))
          && negb authenticated then
    if (0 <? List.length cachedSheets) && (List.length missingSheets =? 0)
    then ServeCachedWithMessage cachedSheets
    else if 0 <? List.length missingSheets
    then Reject401Missing missingSheets
    else Reject401Refresh
  else
    FetchSheets
      (if forceRefresh then [hd_error sheetNames] else map Some missingSheets)
      cachedSheets.

(** * Definitions used to state the properties

    Auxiliary notions (closed forms, loop invariants, the classification
    table as the specification words it) and the sample data the worked
    examples run on.  None of them is part of the source. *)

(** No whitespace in front: what [trimStart] establishes. *)
Definition noLeadingSpace (s : string) : Prop :=
  match s with
  | EmptyString => True
  | String c _ => isWhiteSpace c = false
  end.

(** The string is made of whitespace only. *)
Fixpoint allWhite (s : string) : bool :=
  match s with
  | EmptyString => true
  | String c s' => isWhiteSpace c && allWhite s'
  end.

(** All the word records of a topic list, in order. *)
Definition allWords (topics : list Topic) : list WordRecord :=
  flat_map words topics.

(** How many words have the flag key [key], the key being computed as the
    source computes it. *)
Definition countKey (key : string) (ws : list WordRecord) : nat :=
  List.length (filter (fun w => String.eqb (flagKey (flag w)) key) ws).

(** The four counts of a word list. *)
Definition tally (ws : list WordRecord) : ByFlag :=
  {| new := countKey "n" ws; known := countKey "y" ws;
     forgotten := countKey "?" ws; learned := countKey "ok" ws |}.

(** Pointwise sum of two count records. *)
Definition addByFlag (a b : ByFlag) : ByFlag :=
  {| new := new a + new b; known := known a + known b;
     forgotten := forgotten a + forgotten b;
     learned := learned a + learned b |}.

(** Cells that [isEmptyRow] counts as blank. *)
Definition blankCell (c : JsVal) : Prop :=
  c = JNull \/ c = JUndefined \/ exists s, c = JStr s /\ allWhite s = true.

(** The record [parseWord] builds from a row that has a word. *)
Definition wordOfRow (row : Row) (n : nat) : WordRecord :=
  {| rowNumber := n;
     order := getCell row 0;
     flag := JStr (getCell row 2);
     word := getCell row 3;
     partOfSpeech := getCell row 4;
     pronunciation := getCell row 5;
     meaning := getCell row 6;
     exampleSentence := getCell row 7;
     synonyms := getCell row 8;
     dayOfWeek := getCell row 9;
     date := getCell row 10 |}.

(** The words a row contributes: the record of [parseWord], if any. *)
Definition rowWords (row : Row) (i : nat) : list WordRecord :=
  match parseWord row (i + 1) with
  | Some w => [w]
  | None => []
  end.

(** [t] with further words pushed onto [t.words]. *)
Definition addWords (t : Topic) (ws : list WordRecord) : Topic :=
  {| name := name t; startRow := startRow t; words := words t ++ ws;
     statistics := statistics t |}.

(** The loop starts with [topics = []] and [currentTopic = null]. *)
Definition initState : ParseState := ([], None).

(** The topics a loop state stands for: [topics] with [currentTopic]
    pushed, which is what [parseTopics] returns after the loop. *)
Definition stateTopics (st : ParseState) : list Topic :=
  pushTopic (fst st) (snd st).

(** The topic object created at index [i], holding the words [ws]. *)
Definition newTopic (nm : string) (i : nat) (ws : list WordRecord) : Topic :=
  {| name := nm; startRow := i + 1; words := ws; statistics := None |}.

(** The words of the grid from index [i] on, row by row. *)
Fixpoint gridWords (i : nat) (rows : list Row) : list WordRecord :=
  match rows with
  | [] => []
  | row :: rest => rowWords row i ++ gridWords (S i) rest
  end.

(** The worksheet is copied through: it has an error marker (a truthy
    [error]) or its [values] are absent or empty. *)
Definition passesThrough (w : Worksheet) : bool :=
  truthy (ws_error w)
  || match ws_values w with
     | None => true
     | Some values => List.length values =? 0
     end.

(** The document built when the input is not returned as it is. *)
Definition documentOf (d : ExcelData) (wss : list Worksheet)
  : StructuredDocument :=
  {| out_fileName := fileName d;
     out_fileSize := fileSize d;
     out_worksheets := map transformWorksheet wss;
     out_cached := _cached d;
     out_cachedAt := if truthy (_cachedAt d) then _cachedAt d else JUndefined;
     out_fetchedAt :=
       if truthy (_fetchedAt d) then _fetchedAt d else JUndefined |}.

(** Specification side.  The cell normalization rule on one scalar: absent
    or null gives the empty string, anything else is converted to a string
    and trimmed. *)
Definition specNormalize (v : JsVal) : string :=
  match v with
  | JUndefined | JNull => ""
  | _ => trim (toString v)
  end.

Inductive Bucket : Type := New | Known | Forgotten | Learned.

Definition Bucket_eqb (a b : Bucket) : bool :=
  match a, b with
  | New, New | Known, Known | Forgotten, Forgotten | Learned, Learned => true
  | _, _ => false
  end.

(** Specification side.  The classification table: exact match of the
    normalised, lowercased flag; [None] is the uncounted case. *)
Definition specBucket (key : string) : option Bucket :=
  if String.eqb key "n" then Some New
  else if String.eqb key "y" then Some Known
  else if String.eqb key "?" then Some Forgotten
  else if String.eqb key "ok" then Some Learned
  else None.

(** Specification side.  Normalise, lowercase, then classify. *)
Definition specClassify (f : JsVal) : option Bucket :=
  specBucket (toLowerCase (specNormalize f)).

Definition inBucket (b : Bucket) (w : WordRecord) : bool :=
  match specClassify (flag w) with
  | Some b' => Bucket_eqb b b'
  | None => false
  end.

Definition countBucket (b : Bucket) (ws : list WordRecord) : nat :=
  List.length (filter (inBucket b) ws).

(** A topic list holding one word whose flag is [f]. *)
Definition oneWord (f : JsVal) : list Topic :=
  [ {| name := "T"; startRow := 1;
       words := [ {| rowNumber := 1; order := "1"; flag := f; word := "apple";
                     partOfSpeech := ""; pronunciation := ""; meaning := "";
                     exampleSentence := ""; synonyms := ""; dayOfWeek := "";
                     date := "" |} ];
       statistics := None |} ].

(** Two topics hold the same words, possibly in another order. *)
Definition sameWords (t t' : Topic) : Prop := Permutation (words t) (words t').

(** Word records and topics used to exercise the order independence. *)
Definition sampleWord (n : nat) (f w : string) : WordRecord :=
  {| rowNumber := n; order := ""; flag := JStr f; word := w;
     partOfSpeech := ""; pronunciation := ""; meaning := "";
     exampleSentence := ""; synonyms := ""; dayOfWeek := ""; date := "" |}.

Definition sampleTopic (nm : string) (ws : list WordRecord) : Topic :=
  {| name := nm; startRow := 1; words := ws; statistics := None |}.

(** A payload with a failed worksheet in front of a good one. *)
Definition failedSheet : Worksheet :=
  {| ws_name := JStr "X"; ws_range := JUndefined; ws_rowCount := JUndefined;
     ws_columnCount := JUndefined; ws_values := None;
     ws_error := JStr "boom" |}.

Definition goodSheet : Worksheet :=
  {| ws_name := JStr "Sheet1"; ws_range := JStr "A1:D1";
     ws_rowCount := JNum 1; ws_columnCount := JNum 4;
     ws_values := Some [Some [JNum 1; JStr "T1"; JStr "N"; JStr "apple"]];
     ws_error := JUndefined |}.

Definition samplePayload (c ca fa : JsVal) : ExcelData :=
  {| fileName := JStr "vocab.xlsx"; fileSize := JNum 2048;
     worksheets := Some [failedSheet; goodSheet];
     _cached := c; _cachedAt := ca; _fetchedAt := fa |}.

(** C6 as the specification states it: each of the three metadata fields
    comes out with its input value when present and is absent otherwise
    (an absent field reads [JUndefined] on both sides). *)
Definition metadata_copied_when_present : Prop :=
  forall d doc,
    transformVocabData (Some d) = Document doc ->
    out_cached doc = _cached d
    /\ out_cachedAt doc = _cachedAt d
    /\ out_fetchedAt doc = _fetchedAt d.

(** Rows of [body] before position [k] are all empty. *)
Definition emptyBefore (body : list Row) (k : nat) : Prop :=
  forall j r, j < k -> nth_error body j = Some r -> isEmptyRow r = true.

(** A topic is started by a row of [body], the rows the loop goes through
    from index [h] on: a marker row, which names it, or the first non-empty
    row when that row has no topic name. *)
Definition startedBy (h : nat) (body : list Row) (nm : string) (start : nat)
  : Prop :=
  exists j r,
    nth_error body j = Some r
    /\ isEmptyRow r = false
    /\ start = h + j + 1
    /\ ((getCell r 1 <> "" /\ nm = getCell r 1)
        \/ (getCell r 1 = "" /\ nm = "Uncategorized" /\ emptyBefore body j)).

(** The loop invariant behind [startedBy]: every topic of the state has an
    origin, and while there is no current topic nothing has been pushed and
    every row seen so far was empty. *)
Definition originInv (h : nat) (body : list Row) (k : nat) (st : ParseState)
  : Prop :=
  (forall t, In t (stateTopics st) -> startedBy h body (name t) (startRow t))
  /\ (snd st = None -> fst st = [] /\ emptyBefore body k).

(** C3 as the specification states it: a topic named "Uncategorized" is
    in the output only when a word row (column D non-empty after trimming,
    column B empty) is in the grid, and its [startRow] is that row's
    1-based index. *)
Definition uncategorized_only_for_word_rows : Prop :=
  forall rows t,
    In t (parseTopics rows) -> name t = "Uncategorized" ->
    exists i row,
      nth_error rows i = Some row
      /\ getCell row 1 = ""
      /\ getCell row 3 <> ""
      /\ startRow t = i + 1.

(** ** Further notions on the transformer *)

(** The sum of the four counts. *)
Definition byFlagTotal (b : ByFlag) : nat :=
  new b + known b + forgotten b + learned b.

(** How many words have a flag that falls in no bucket. *)
Definition uncounted (ws : list WordRecord) : nat :=
  List.length
    (filter (fun w => match specClassify (flag w) with
                      | None => true
                      | Some _ => false
                      end) ws).

(** The row has a word: its normalised column-D cell is not empty. *)
Definition hasWord (row : Row) : bool :=
  negb (String.eqb (getCell row 3) "").

(** The row is a topic marker: its normalised column-B cell is not empty. *)
Definition isMarker (row : Row) : bool :=
  negb (String.eqb (getCell row 1) "").

(** The rows the loop of [parseTopics] goes through. *)
Definition loopRows (rows : list Row) : list Row :=
  skipn (headerOffset rows) rows.

(** The first non-empty row exists and carries no topic name. *)
Definition startsUncategorized (body : list Row) : bool :=
  match find (fun r => negb (isEmptyRow r)) body with
  | Some r => negb (isMarker r)
  | None => false
  end.

(** The statistics stored in a topic, zero when there are none. *)
Definition storedStatistics (t : Topic) : TopicStatistics :=
  match statistics t with
  | Some s => s
  | None => {| topicTotalWords := 0; topicByFlag := zeroByFlag |}
  end.

(** Field by field sum of the statistics stored in the topics. *)
Definition sumStoredStatistics (ts : list Topic) : TopicStatistics :=
  fold_right
    (fun t acc =>
       {| topicTotalWords := topicTotalWords (storedStatistics t)
                             + topicTotalWords acc;
          topicByFlag := addByFlag (topicByFlag (storedStatistics t))
                                   (topicByFlag acc) |})
    {| topicTotalWords := 0; topicByFlag := zeroByFlag |} ts.

(** Topic [t] lies wholly above topic [t'] in the grid: it starts earlier
    and all its words come from rows above the start row of [t']. *)
Definition liesBefore (t t' : Topic) : Prop :=
  startRow t < startRow t'
  /\ forall w, In w (words t) -> rowNumber w < startRow t'.

(** The loop invariant behind the ordering of the topics: after [k] rows
    of a loop that started at index [h], the topics are in grid order and
    every start row and row number lies within the rows seen so far. *)
Definition placedInv (h k : nat) (st : ParseState) : Prop :=
  StronglySorted liesBefore (stateTopics st)
  /\ forall t, In t (stateTopics st) ->
       h < startRow t /\ startRow t <= h + k
       /\ forall w, In w (words t) ->
            startRow t <= rowNumber w /\ rowNumber w <= h + k.

(** Every text field of the word record is in trimmed form, the word is
    not empty and the flag is a string. *)
Definition normalisedWord (w : WordRecord) : Prop :=
  word w <> ""
  /\ trim (word w) = word w
  /\ (exists f, flag w = JStr f /\ trim f = f)
  /\ trim (order w) = order w
  /\ trim (partOfSpeech w) = partOfSpeech w
  /\ trim (pronunciation w) = pronunciation w
  /\ trim (meaning w) = meaning w
  /\ trim (exampleSentence w) = exampleSentence w
  /\ trim (synonyms w) = synonyms w
  /\ trim (dayOfWeek w) = dayOfWeek w
  /\ trim (date w) = date w.

(** ** Notions used to state the properties of the callers *)

(** The sheet is usable: it carries no error. *)
Definition usable (d : SheetData) : bool := negb (truthy (sd_error d)).

(** What one sheet contributes to [combined.worksheets]. *)
Definition contribution (entry : string * SheetData) : list CombinedWorksheet :=
  if truthy (sd_error (snd entry)) then
    [ErrorEntry ("Error - " ++ fst entry)%string (sd_error (snd entry))]
  else
    match sd_worksheets (snd entry) with
    | Some ws => map (prefixWorksheet (fst entry)) ws
    | None => []
    end.

(** The worksheet an entry of [combined.worksheets] was copied from. *)
Definition sourceOf (e : CombinedWorksheet) : list OutWorksheet :=
  match e with
  | ErrorEntry _ _ => []
  | SheetEntry worksheet _ _ => [worksheet]
  end.

(** The worksheets of a usable sheet. *)
Definition usableWorksheets (entry : string * SheetData) : list OutWorksheet :=
  if usable (snd entry) then
    match sd_worksheets (snd entry) with
    | Some ws => ws
    | None => []
    end
  else [].

(** The invariant of [oldestCache] after the entries [seen]: it is still
    falsy and no usable sheet seen had a cache time, or it is the cache
    time of a usable sheet seen and no usable sheet seen has an earlier
    one. *)
Definition oldestInv (dateValue : JsVal -> option Z)
    (seen : list (string * SheetData)) (oldest : JsVal) : Prop :=
  (truthy oldest = false
   /\ forall e, In e seen -> usable (snd e) = true ->
        truthy (sd_cachedAt (snd e)) = false)
  \/ (truthy oldest = true
      /\ (exists e, In e seen /\ usable (snd e) = true
                    /\ oldest = sd_cachedAt (snd e))
      /\ forall e, In e seen -> usable (snd e) = true ->
           truthy (sd_cachedAt (snd e)) = true ->
           dateLt dateValue (sd_cachedAt (snd e)) oldest = false).

(** The key under which the route files a sheet: [sheetName || 'default']. *)
Definition sheetKey (sheetName : string) : string :=
  if truthyStr sheetName then sheetName else "default".

(** The sheets the cache knows, with their keys, and those it does not. *)
Definition foundSheets (cacheLookup : string -> option SheetData)
    (sheetNames : list string) : list (string * SheetData) :=
  flat_map (fun n => match cacheLookup n with
                     | Some d => [(sheetKey n, d)]
                     | None => []
                     end) sheetNames.

Definition absentSheets (cacheLookup : string -> option SheetData)
    (sheetNames : list string) : list string :=
  filter (fun n => match cacheLookup n with
                   | Some _ => false
                   | None => true
                   end) sheetNames.

(** * Properties *)

(** ** Worked examples *)

Example trim_ex : trim "  N  " = "N" /\ toLowerCase "OK?" = "ok?"
  /\ toString (JNum 12) = "12" /\ toString (JNum (-3)) = "-3"
  /\ toString (JNum 0) = "0".
Proof. repeat split; reflexivity. Qed.

(** A topic-start row carrying its own word, followed by a plain row. *)
Example two_words_one_topic :
  let topics :=
    parseTopics [ Some [JNum 1; JStr "T1"; JStr "N"; JStr "apple"];
                  Some [JNum 2; JStr ""; JStr "Y"; JStr "banana"] ] in
  map (fun t => (name t, startRow t, map word (words t))) topics
  = [("T1", 1, ["apple"; "banana"])]
  /\ calculateStatistics topics
     = {| totalTopics := 1; totalWords := 2;
          byFlag := {| new := 1; known := 1; forgotten := 0; learned := 0 |} |}.
Proof. split; reflexivity. Qed.

(** Words before any topic marker go to "Uncategorized". *)
Example words_before_topic :
  map (fun t => (name t, startRow t, map word (words t)))
      (parseTopics [Some [JNum 1; JStr ""; JStr "N"; JStr "apple"]])
  = [("Uncategorized", 1, ["apple"])].
Proof. reflexivity. Qed.

(** A blank row contributes nothing and row numbers keep counting it. *)
Example blank_row_skipped :
  map (fun t => (name t, startRow t, map rowNumber (words t)))
      (parseTopics [ Some [JStr ""; JStr ""; JStr ""; JStr ""];
                     Some [JNum 1; JStr "T1"; JStr "ok"; JStr "apple"] ])
  = [("T1", 2, [2])].
Proof. reflexivity. Qed.

(** The header row is left out of the parse. *)
Example header_skipped :
  map (fun t => (name t, startRow t, map word (words t)))
      (parseTopics [ Some [JStr "Order"; JStr "Topic"; JStr "Flag"; JStr "Word"];
                     Some [JNum 1; JStr "T1"; JStr "n"; JStr "apple"] ])
  = [("T1", 2, ["apple"])].
Proof. reflexivity. Qed.

(** ** Strings: [trim] and [toLowerCase] *)

Section StringFacts.

Lemma trimStart_noLeadingSpace s : noLeadingSpace (trimStart s).
Proof.
  induction s as [|c s IH]; simpl; [exact I|].
  destruct (isWhiteSpace c) eqn:E; [exact IH|exact E].
Qed.

Lemma trimStart_fixed s : noLeadingSpace s -> trimStart s = s.
Proof.
  destruct s as [|c s]; simpl; [reflexivity|].
  intros ->. reflexivity.
Qed.

Lemma trimEnd_noLeadingSpace s : noLeadingSpace s -> noLeadingSpace (trimEnd s).
Proof.
  destruct s as [|c s]; simpl; [trivial|].
  intros E. destruct (trimEnd s); rewrite ?E; simpl; exact E.
Qed.

Lemma trimEnd_cons c s :
  trimEnd (String c s) =
  match trimEnd s with
  | EmptyString => if isWhiteSpace c then EmptyString else String c EmptyString
  | r => String c r
  end.
Proof. reflexivity. Qed.

Lemma trimEnd_idem s : trimEnd (trimEnd s) = trimEnd s.
Proof.
  induction s as [|c s IH]; simpl; [reflexivity|].
  destruct (trimEnd s) as [|d r] eqn:E.
  - destruct (isWhiteSpace c) eqn:W; simpl; [reflexivity|].
    rewrite W. reflexivity.
  - rewrite (trimEnd_cons c (String d r)), IH. reflexivity.
Qed.

Lemma trim_idem s : trim (trim s) = trim s.
Proof.
  unfold trim.
  rewrite (trimStart_fixed (trimEnd (trimStart s))).
  - apply trimEnd_idem.
  - apply trimEnd_noLeadingSpace, trimStart_noLeadingSpace.
Qed.

Lemma trimEnd_empty s : noLeadingSpace s -> trimEnd s = "" -> s = "".
Proof.
  destruct s as [|c s]; simpl; [reflexivity|].
  intros E. destruct (trimEnd s); [rewrite E|]; discriminate.
Qed.

Lemma trimStart_allWhite s : allWhite s = true -> trimStart s = "".
Proof.
  induction s as [|c s IH]; simpl; [reflexivity|].
  destruct (isWhiteSpace c); simpl; [exact IH|discriminate].
Qed.

Lemma trimStart_empty s : trimStart s = "" -> allWhite s = true.
Proof.
  induction s as [|c s IH]; simpl; [reflexivity|].
  destruct (isWhiteSpace c); simpl; [exact IH|discriminate].
Qed.

(** A string trims to the empty string exactly when it is whitespace-only. *)
Lemma trim_empty_iff s : trim s = "" <-> allWhite s = true.
Proof.
  unfold trim. split.
  - intros H. apply trimStart_empty.
    apply trimEnd_empty; [apply trimStart_noLeadingSpace|exact H].
  - intros H. rewrite (trimStart_allWhite s H). reflexivity.
Qed.

Lemma isWhiteSpace_lowerChar c : isWhiteSpace (lowerChar c) = isWhiteSpace c.
Proof.
  destruct c as [[] [] [] [] [] [] [] []]; vm_compute; reflexivity.
Qed.

Lemma trimStart_toLowerCase s :
  trimStart (toLowerCase s) = toLowerCase (trimStart s).
Proof.
  induction s as [|c s IH]; simpl; [reflexivity|].
  rewrite isWhiteSpace_lowerChar.
  destruct (isWhiteSpace c); [exact IH|reflexivity].
Qed.

Lemma trimEnd_toLowerCase s :
  trimEnd (toLowerCase s) = toLowerCase (trimEnd s).
Proof.
  induction s as [|c s IH]; simpl; [reflexivity|].
  rewrite IH, isWhiteSpace_lowerChar.
  destruct (trimEnd s); simpl; [|reflexivity].
  destruct (isWhiteSpace c); reflexivity.
Qed.

(** Trimming and lowercasing commute, so the order in which the source
    applies them does not matter. *)
Lemma trim_toLowerCase s : trim (toLowerCase s) = toLowerCase (trim s).
Proof.
  unfold trim. rewrite trimStart_toLowerCase. apply trimEnd_toLowerCase.
Qed.

Lemma truthyStr_true s : truthyStr s = true <-> s <> "".
Proof.
  unfold truthyStr. rewrite negb_true_iff.
  split.
  - intros H ->. discriminate H.
  - intros H. apply String.eqb_neq. exact H.
Qed.

End StringFacts.

(** ** Statistics aggregator: what the two folds compute *)

Section Aggregation.

Lemma ByFlag_eq n k f l n' k' f' l' :
  n = n' -> k = k' -> f = f' -> l = l' ->
  Build_ByFlag n k f l = Build_ByFlag n' k' f' l'.
Proof. congruence. Qed.

Lemma countKey_cons key w ws :
  countKey key (w :: ws) =
  (if String.eqb (flagKey (flag w)) key then 1 else 0) + countKey key ws.
Proof.
  unfold countKey. simpl.
  destruct (String.eqb (flagKey (flag w)) key); reflexivity.
Qed.

Lemma countKey_app key ws1 ws2 :
  countKey key (ws1 ++ ws2) = countKey key ws1 + countKey key ws2.
Proof.
  unfold countKey. rewrite filter_app, length_app. reflexivity.
Qed.

Lemma tally_app ws1 ws2 : tally (ws1 ++ ws2) = addByFlag (tally ws1) (tally ws2).
Proof.
  unfold tally, addByFlag; simpl. rewrite !countKey_app. reflexivity.
Qed.

Lemma addByFlag_assoc a b c :
  addByFlag (addByFlag a b) c = addByFlag a (addByFlag b c).
Proof.
  destruct a, b, c; unfold addByFlag; simpl. apply ByFlag_eq; lia.
Qed.

Lemma addByFlag_zero_l a : addByFlag zeroByFlag a = a.
Proof. destruct a; reflexivity. Qed.

Lemma addByFlag_zero_r a : addByFlag a zeroByFlag = a.
Proof. destruct a; unfold addByFlag; simpl. apply ByFlag_eq; lia. Qed.

Lemma tally_nil : tally [] = zeroByFlag.
Proof. reflexivity. Qed.

(** The four-way [if] chain adds one to the bucket of the word's key. *)
Lemma bump_tally w b :
  let key := flagKey (flag w) in
  (if String.eqb key "n" then
     {| new := new b + 1; known := known b; forgotten := forgotten b;
        learned := learned b |}
   else if String.eqb key "y" then
     {| new := new b; known := known b + 1; forgotten := forgotten b;
        learned := learned b |}
   else if String.eqb key "?" then
     {| new := new b; known := known b; forgotten := forgotten b + 1;
        learned := learned b |}
   else if String.eqb key "ok" then
     {| new := new b; known := known b; forgotten := forgotten b;
        learned := learned b + 1 |}
   else b) = addByFlag b (tally [w]).
Proof.
  intros key. unfold tally, addByFlag. rewrite !countKey_cons.
  fold key. change (countKey "n" []) with 0. change (countKey "y" []) with 0.
  change (countKey "?" []) with 0. change (countKey "ok" []) with 0. simpl.
  destruct (String.eqb key "n") eqn:En.
  { apply String.eqb_eq in En. rewrite En. simpl. apply ByFlag_eq; lia. }
  destruct (String.eqb key "y") eqn:Ey.
  { apply String.eqb_eq in Ey. rewrite Ey. simpl. apply ByFlag_eq; lia. }
  destruct (String.eqb key "?") eqn:Eq.
  { apply String.eqb_eq in Eq. rewrite Eq. simpl. apply ByFlag_eq; lia. }
  destruct (String.eqb key "ok") eqn:Eo.
  { simpl. apply ByFlag_eq; lia. }
  destruct b; simpl. apply ByFlag_eq; lia.
Qed.

Lemma statsWord_eq s w :
  statsWord s w =
  {| totalTopics := totalTopics s; totalWords := totalWords s;
     byFlag := addByFlag (byFlag s) (tally [w]) |}.
Proof.
  rewrite <- bump_tally. unfold statsWord. cbv zeta.
  destruct s as [tt tw b]; simpl.
  repeat match goal with
         | |- context [String.eqb ?a ?b] => destruct (String.eqb a b)
         end; reflexivity.
Qed.

Lemma topicStatsWord_eq s w :
  topicStatsWord s w =
  {| topicTotalWords := topicTotalWords s;
     topicByFlag := addByFlag (topicByFlag s) (tally [w]) |}.
Proof.
  rewrite <- bump_tally. unfold topicStatsWord. cbv zeta.
  destruct s as [tw b]; simpl.
  repeat match goal with
         | |- context [String.eqb ?a ?b] => destruct (String.eqb a b)
         end; reflexivity.
Qed.

Lemma fold_statsWord ws : forall s,
  fold_left statsWord ws s =
  {| totalTopics := totalTopics s; totalWords := totalWords s;
     byFlag := addByFlag (byFlag s) (tally ws) |}.
Proof.
  induction ws as [|w ws IH]; intros s.
  - simpl. rewrite tally_nil, addByFlag_zero_r. destruct s; reflexivity.
  - simpl fold_left. rewrite IH, statsWord_eq. simpl.
    rewrite addByFlag_assoc, <- tally_app. reflexivity.
Qed.

Lemma fold_topicStatsWord ws : forall s,
  fold_left topicStatsWord ws s =
  {| topicTotalWords := topicTotalWords s;
     topicByFlag := addByFlag (topicByFlag s) (tally ws) |}.
Proof.
  induction ws as [|w ws IH]; intros s.
  - simpl. rewrite tally_nil, addByFlag_zero_r. destruct s; reflexivity.
  - simpl fold_left. rewrite IH, topicStatsWord_eq. simpl.
    rewrite addByFlag_assoc, <- tally_app. reflexivity.
Qed.

Lemma fold_statsTopic ts : forall s,
  fold_left statsTopic ts s =
  {| totalTopics := totalTopics s;
     totalWords := totalWords s + List.length (allWords ts);
     byFlag := addByFlag (byFlag s) (tally (allWords ts)) |}.
Proof.
  induction ts as [|t ts IH]; intros s.
  - simpl. rewrite tally_nil, addByFlag_zero_r, Nat.add_0_r.
    destruct s; reflexivity.
  - simpl fold_left. rewrite IH. unfold statsTopic.
    rewrite fold_statsWord. simpl.
    rewrite length_app, tally_app, addByFlag_assoc.
    f_equal. lia.
Qed.

Lemma fold_topicStatsTopic ts : forall s,
  fold_left topicStatsTopic ts s =
  {| topicTotalWords := topicTotalWords s + List.length (allWords ts);
     topicByFlag := addByFlag (topicByFlag s) (tally (allWords ts)) |}.
Proof.
  induction ts as [|t ts IH]; intros s.
  - simpl. rewrite tally_nil, addByFlag_zero_r, Nat.add_0_r.
    destruct s; reflexivity.
  - simpl fold_left. rewrite IH. unfold topicStatsTopic.
    rewrite fold_topicStatsWord. simpl.
    rewrite length_app, tally_app, addByFlag_assoc.
    f_equal. lia.
Qed.

(** Closed form of the worksheet-level aggregator. *)
Lemma calculateStatistics_eq ts :
  calculateStatistics ts =
  {| totalTopics := List.length ts;
     totalWords := List.length (allWords ts);
     byFlag := tally (allWords ts) |}.
Proof.
  unfold calculateStatistics. rewrite fold_statsTopic. simpl.
  rewrite addByFlag_zero_l. reflexivity.
Qed.

(** Closed form of the topic-level aggregator. *)
Lemma calculateTopicStatistics_eq ts :
  calculateTopicStatistics ts =
  {| topicTotalWords := List.length (allWords ts);
     topicByFlag := tally (allWords ts) |}.
Proof.
  unfold calculateTopicStatistics. rewrite fold_topicStatsTopic. simpl.
  rewrite addByFlag_zero_l. reflexivity.
Qed.

End Aggregation.

(** ** Cell helpers and the word record extractor *)

Section CellFacts.

(** [getCell] returns an already trimmed string, so the second [trim] the
    callers apply changes nothing. *)
Lemma getCell_trimmed row k : trim (getCell row k) = getCell row k.
Proof.
  unfold getCell. destruct row as [cells|]; [|reflexivity].
  destruct (List.length cells <=? k); [reflexivity|]. cbv zeta.
  destruct (negb (isNull (nth k cells JUndefined))
            && negb (isUndefined (nth k cells JUndefined)));
    [apply trim_idem|reflexivity].
Qed.

(** Every cell of an empty row normalises to the empty string. *)
Lemma isEmptyRow_getCell row k : isEmptyRow row = true -> getCell row k = "".
Proof.
  unfold isEmptyRow, getCell. destruct row as [cells|]; [|reflexivity].
  destruct (List.length cells <=? k) eqn:L; [reflexivity|].
  apply Nat.leb_gt in L.
  destruct (List.length cells =? 0) eqn:Z.
  { apply Nat.eqb_eq in Z. lia. }
  intros H. rewrite forallb_forall in H.
  specialize (H (nth k cells JUndefined) (nth_In cells JUndefined L)).
  cbv zeta.
  destruct (nth k cells JUndefined); simpl in *; try reflexivity;
    apply String.eqb_eq in H; exact H.
Qed.

Lemma getCell_nonempty_row row k : getCell row k <> "" -> isEmptyRow row = false.
Proof.
  intros H. destruct (isEmptyRow row) eqn:E; [|reflexivity].
  exfalso. apply H. apply isEmptyRow_getCell. exact E.
Qed.

Lemma blank_row_isEmptyRow cells :
  Forall blankCell cells -> isEmptyRow (Some cells) = true.
Proof.
  intros H. unfold isEmptyRow.
  destruct (List.length cells =? 0); [reflexivity|].
  apply forallb_forall. intros c Hc.
  rewrite Forall_forall in H. destruct (H c Hc) as [->|[->|[s [-> Hs]]]];
    try reflexivity.
  simpl. apply String.eqb_eq. apply trim_empty_iff. exact Hs.
Qed.

Lemma parseWord_eq row n :
  parseWord row n =
  if String.eqb (getCell row 3) "" then None else Some (wordOfRow row n).
Proof.
  unfold parseWord, wordOfRow. cbv zeta. rewrite getCell_trimmed.
  unfold truthyStr. destruct (String.eqb (getCell row 3) ""); reflexivity.
Qed.

Lemma parseWord_None row n : parseWord row n = None <-> getCell row 3 = "".
Proof.
  rewrite parseWord_eq. destruct (String.eqb (getCell row 3) "") eqn:E.
  - apply String.eqb_eq in E. tauto.
  - apply String.eqb_neq in E. split; [discriminate|contradiction].
Qed.

Lemma parseWord_Some row n w :
  parseWord row n = Some w ->
  getCell row 3 <> "" /\ w = wordOfRow row n.
Proof.
  rewrite parseWord_eq. destruct (String.eqb (getCell row 3) "") eqn:E;
    [discriminate|].
  apply String.eqb_neq in E. intros [= <-]. split; [exact E|reflexivity].
Qed.

Lemma rowWords_empty row i : isEmptyRow row = true -> rowWords row i = [].
Proof.
  intros H. unfold rowWords.
  rewrite (proj2 (parseWord_None row (i + 1)) (isEmptyRow_getCell row 3 H)).
  reflexivity.
Qed.

Lemma addWords_nil t : addWords t [] = t.
Proof. destruct t; unfold addWords; simpl. rewrite app_nil_r. reflexivity. Qed.

Lemma addWords_addWords t ws1 ws2 :
  addWords (addWords t ws1) ws2 = addWords t (ws1 ++ ws2).
Proof. unfold addWords; simpl. rewrite app_assoc. reflexivity. Qed.

(** The guard [word && word.word] never rejects a record of [parseWord]. *)
Lemma pushWord_parseWord t row i :
  pushWord t (parseWord row (i + 1)) = addWords t (rowWords row i).
Proof.
  unfold pushWord, rowWords.
  destruct (parseWord row (i + 1)) as [w|] eqn:E.
  - apply parseWord_Some in E. destruct E as [Hne ->]. simpl.
    rewrite (proj2 (truthyStr_true _) Hne). reflexivity.
  - symmetry. apply addWords_nil.
Qed.

End CellFacts.

(** ** The parsing loop *)

Section LoopFacts.

(** One iteration, by cases on the row. *)
Lemma parseRow_eq i row topics cur :
  parseRow i row (topics, cur) =
  if isEmptyRow row then (topics, cur)
  else if String.eqb (getCell row 1) "" then
    match cur with
    | Some t => (topics, Some (addWords t (rowWords row i)))
    | None => (topics, Some (newTopic "Uncategorized" i (rowWords row i)))
    end
  else
    (pushTopic topics cur, Some (newTopic (getCell row 1) i (rowWords row i))).
Proof.
  unfold parseRow. destruct (isEmptyRow row); [reflexivity|]. cbv zeta.
  rewrite getCell_trimmed. unfold truthyStr.
  destruct (String.eqb (getCell row 1) ""); simpl.
  - destruct cur; rewrite pushWord_parseWord; reflexivity.
  - rewrite pushWord_parseWord. reflexivity.
Qed.

Lemma parseRow_empty i row st : isEmptyRow row = true -> parseRow i row st = st.
Proof. intros H. destruct st. rewrite parseRow_eq, H. reflexivity. Qed.

Lemma parseRow_marker i row topics cur :
  getCell row 1 <> "" ->
  parseRow i row (topics, cur) =
  (pushTopic topics cur, Some (newTopic (getCell row 1) i (rowWords row i))).
Proof.
  intros H. rewrite parseRow_eq, (getCell_nonempty_row row 1 H).
  apply String.eqb_neq in H. rewrite H. reflexivity.
Qed.

Lemma parseLoop_cons i r rest st :
  parseLoop i (r :: rest) st = parseLoop (S i) rest (parseRow i r st).
Proof. reflexivity. Qed.

Lemma parseLoop_app l1 : forall i l2 st,
  parseLoop i (l1 ++ l2) st = parseLoop (i + List.length l1) l2 (parseLoop i l1 st).
Proof.
  induction l1 as [|r l1 IH]; intros i l2 st.
  - simpl. rewrite Nat.add_0_r. reflexivity.
  - rewrite <- app_comm_cons, !parseLoop_cons, IH. simpl. f_equal. lia.
Qed.

Lemma parseLoop_all_empty l : forall i st,
  (forall r, In r l -> isEmptyRow r = true) -> parseLoop i l st = st.
Proof.
  induction l as [|r l IH]; intros i st H; [reflexivity|].
  rewrite parseLoop_cons.
  rewrite (parseRow_empty i r st) by (apply H; left; reflexivity).
  apply IH. intros r' Hr'. apply H. right. exact Hr'.
Qed.

Lemma parseTopics_eq rows :
  parseTopics rows =
  stateTopics (parseLoop (headerOffset rows) (skipn (headerOffset rows) rows)
                         initState).
Proof.
  unfold parseTopics, stateTopics, initState. cbv zeta.
  destruct (parseLoop _ _ _). reflexivity.
Qed.

(** Once a topic is current it stays in the output, at the same position,
    with its name and start row, and its words only grow at the end. *)
Lemma parseLoop_extends rest : forall j topics t,
  exists more tail,
    stateTopics (parseLoop j rest (topics, Some t))
    = topics ++ addWords t more :: tail.
Proof.
  induction rest as [|r rest IH]; intros j topics t.
  - exists [], []. simpl. rewrite addWords_nil. reflexivity.
  - rewrite parseLoop_cons, parseRow_eq.
    destruct (isEmptyRow r).
    + apply IH.
    + destruct (String.eqb (getCell r 1) "").
      * destruct (IH (S j) topics (addWords t (rowWords r j)))
          as [more [tail E]].
        exists (rowWords r j ++ more), tail.
        rewrite E, addWords_addWords. reflexivity.
      * simpl pushTopic.
        destruct (IH (S j) (topics ++ [t])
                     (newTopic (getCell r 1) j (rowWords r j)))
          as [more [tail E]].
        exists [], (addWords (newTopic (getCell r 1) j (rowWords r j)) more
                      :: tail).
        rewrite E, addWords_nil, <- app_assoc. reflexivity.
Qed.

Lemma allWords_app ts1 ts2 : allWords (ts1 ++ ts2) = allWords ts1 ++ allWords ts2.
Proof. apply flat_map_app. Qed.

Lemma allWords_pushTopic topics cur :
  allWords (pushTopic topics cur)
  = allWords topics ++ match cur with Some t => words t | None => [] end.
Proof.
  destruct cur as [t|]; simpl.
  - rewrite allWords_app. simpl. rewrite app_nil_r. reflexivity.
  - rewrite app_nil_r. reflexivity.
Qed.

Lemma allWords_parseRow i row st :
  allWords (stateTopics (parseRow i row st))
  = allWords (stateTopics st) ++ rowWords row i.
Proof.
  destruct st as [topics cur]. rewrite parseRow_eq.
  destruct (isEmptyRow row) eqn:E.
  - rewrite (rowWords_empty row i E), app_nil_r. reflexivity.
  - unfold stateTopics.
    destruct (String.eqb (getCell row 1) ""); [destruct cur|]; simpl fst;
      simpl snd; rewrite !allWords_pushTopic; simpl;
      rewrite ?app_assoc, ?app_nil_r; reflexivity.
Qed.

(** No word is lost or invented: the words of the loop's topics are the
    words it started with followed by those of the rows it went through. *)
Lemma allWords_parseLoop rows : forall i st,
  allWords (stateTopics (parseLoop i rows st))
  = allWords (stateTopics st) ++ gridWords i rows.
Proof.
  induction rows as [|r rows IH]; intros i st.
  - simpl. rewrite app_nil_r. reflexivity.
  - rewrite parseLoop_cons, IH, allWords_parseRow. simpl.
    rewrite <- app_assoc. reflexivity.
Qed.

Lemma allWords_parseTopics rows :
  allWords (parseTopics rows)
  = gridWords (headerOffset rows) (skipn (headerOffset rows) rows).
Proof. rewrite parseTopics_eq, allWords_parseLoop. reflexivity. Qed.

Lemma In_gridWords w rows : forall i,
  In w (gridWords i rows) <->
  exists k row, nth_error rows k = Some row
                /\ parseWord row (i + k + 1) = Some w.
Proof.
  induction rows as [|r rows IH]; intros i; simpl.
  - split; [contradiction|]. intros [k [row [H _]]].
    destruct k; discriminate H.
  - rewrite in_app_iff, IH. unfold rowWords. split.
    + intros [H|[k [row [H1 H2]]]].
      * exists 0, r. split; [reflexivity|]. rewrite Nat.add_0_r.
        destruct (parseWord r (i + 1)) as [w'|]; [|contradiction].
        destruct H as [->|[]]. reflexivity.
      * exists (S k), row. split; [exact H1|].
        rewrite <- H2. f_equal. lia.
    + intros [[|k] [row [H1 H2]]].
      * left. injection H1 as ->. rewrite Nat.add_0_r in H2.
        rewrite H2. left. reflexivity.
      * right. exists k, row. split; [exact H1|].
        rewrite <- H2. f_equal. lia.
Qed.

Lemma In_allWords w ts :
  In w (allWords ts) <-> exists t, In t ts /\ In w (words t).
Proof. unfold allWords. apply in_flat_map. Qed.

End LoopFacts.

(** ** Orchestration: what [transformVocabData] builds *)

Section TransformFacts.

Lemma fold_left_push {A B : Type} (f : A -> B) l : forall acc,
  fold_left (fun acc x => acc ++ [f x]) l acc = acc ++ map f l.
Proof.
  induction l as [|x l IH]; intros acc; simpl.
  - rewrite app_nil_r. reflexivity.
  - rewrite IH, <- app_assoc. reflexivity.
Qed.

Lemma transformWorksheet_untouched w :
  passesThrough w = true -> transformWorksheet w = Untouched w.
Proof.
  unfold transformWorksheet, passesThrough. cbv zeta. intros ->. reflexivity.
Qed.

Lemma transformWorksheet_structured w values :
  truthy (ws_error w) = false -> ws_values w = Some values -> values <> [] ->
  transformWorksheet w =
  Structured {| sw_name := ws_name w;
                sw_range := ws_range w;
                sw_rowCount := ws_rowCount w;
                sw_columnCount := ws_columnCount w;
                sw_topics := map setStatistics (parseTopics values);
                sw_statistics := calculateStatistics (parseTopics values) |}.
Proof.
  intros He Hv Hne. unfold transformWorksheet. cbv zeta. rewrite He, Hv.
  destruct values as [|r values]; [contradiction|]. simpl orb. cbv iota.
  destruct (parseTopics (r :: values)); reflexivity.
Qed.

Lemma transformVocabData_document d wss :
  worksheets d = Some wss -> wss <> [] ->
  transformVocabData (Some d) = Document (documentOf d wss).
Proof.
  intros Hw Hne. unfold transformVocabData, documentOf. rewrite Hw.
  destruct wss as [|w wss]; [contradiction|].
  cbv iota beta. simpl List.length. simpl Nat.eqb. cbv iota.
  rewrite fold_left_push. simpl app.
  destruct (_cached d); reflexivity.
Qed.

Lemma allWords_setStatistics ts : allWords (map setStatistics ts) = allWords ts.
Proof.
  unfold allWords.
  induction ts as [|t ts IH]; simpl; [reflexivity|].
  rewrite IH. reflexivity.
Qed.

End TransformFacts.

(** ** Claims on the statistics aggregator *)

(** C2. For every worksheet with non-empty values and no error marker, the
    worksheet-level statistics that [transformVocabData] puts in the output
    have [totalWords] equal to the sum over the worksheet's topics of the
    length of each topic's word list, and [totalTopics] equal to the number
    of topics. *)
Theorem worksheet_totals (d : ExcelData) (wss : list Worksheet) (k : nat)
    (w : Worksheet) (values : list Row)
    (Hwss : worksheets d = Some wss)
    (Hk : nth_error wss k = Some w)
    (Hval : ws_values w = Some values)
    (Hne : values <> [])
    (Herr : truthy (ws_error w) = false) :
  exists doc sw,
    transformVocabData (Some d) = Document doc
    /\ nth_error (out_worksheets doc) k = Some (Structured sw)
    /\ totalWords (sw_statistics sw)
       = list_sum (map (fun t => List.length (words t)) (sw_topics sw))
    /\ totalTopics (sw_statistics sw) = List.length (sw_topics sw).
Proof.
  assert (Hwne : wss <> []).
  { intros ->. destruct k; discriminate Hk. }
  eexists. eexists. split.
  { apply transformVocabData_document; eassumption. }
  split.
  { simpl. rewrite (nth_error_map transformWorksheet k wss), Hk. simpl.
    rewrite (transformWorksheet_structured w values Herr Hval Hne).
    reflexivity. }
  simpl. rewrite calculateStatistics_eq. simpl. split.
  - rewrite <- (allWords_setStatistics (parseTopics values)).
    unfold allWords. apply length_flat_map.
  - rewrite length_map. reflexivity.
Qed.

Lemma worksheet_totals_witness :
  exists doc sw,
    transformVocabData
      (Some {| fileName := JStr "vocab.xlsx"; fileSize := JNum 1024;
               worksheets :=
                 Some [ {| ws_name := JStr "Sheet1"; ws_range := JStr "A1:D2";
                           ws_rowCount := JNum 2; ws_columnCount := JNum 4;
                           ws_values :=
                             Some [ Some [JNum 1; JStr "T1"; JStr "N";
                                          JStr "apple"];
                                    Some [JNum 2; JStr ""; JStr "Y";
                                          JStr "banana"] ];
                           ws_error := JUndefined |} ];
               _cached := JUndefined; _cachedAt := JUndefined;
               _fetchedAt := JUndefined |})
    = Document doc
    /\ nth_error (out_worksheets doc) 0 = Some (Structured sw)
    /\ totalWords (sw_statistics sw)
       = list_sum (map (fun t => List.length (words t)) (sw_topics sw))
    /\ totalTopics (sw_statistics sw) = List.length (sw_topics sw).
Proof.
  eapply worksheet_totals with (k := 0).
  - reflexivity.
  - reflexivity.
  - reflexivity.
  - discriminate.
  - reflexivity.
Defined.

(** *** Flag classification as the specification words it *)

Section Classification.

(** The key the source computes, lowercasing before trimming and replacing
    every falsy flag by the empty string, lands in the same bucket as the
    key of the specification. *)
Lemma specBucket_flagKey f : specBucket (flagKey f) = specClassify f.
Proof.
  unfold flagKey, specClassify.
  destruct f as [| |[]|n|s]; try reflexivity.
  - simpl truthy. destruct (n =? 0)%Z eqn:E.
    + apply Z.eqb_eq in E. subst n. reflexivity.
    + simpl negb. cbv iota. rewrite trim_toLowerCase. reflexivity.
  - simpl truthy. unfold truthyStr.
    destruct (String.eqb s "") eqn:E.
    + apply String.eqb_eq in E. subst s. reflexivity.
    + simpl negb. cbv iota. rewrite trim_toLowerCase. reflexivity.
Qed.

Lemma eqb_key_bucket key :
  String.eqb key "n"
  = match specBucket key with Some b => Bucket_eqb New b | None => false end
  /\ String.eqb key "y"
  = match specBucket key with Some b => Bucket_eqb Known b | None => false end
  /\ String.eqb key "?"
  = match specBucket key with Some b => Bucket_eqb Forgotten b | None => false end
  /\ String.eqb key "ok"
  = match specBucket key with Some b => Bucket_eqb Learned b | None => false end.
Proof.
  unfold specBucket.
  destruct (String.eqb key "n") eqn:En.
  { apply String.eqb_eq in En. subst key. repeat split; reflexivity. }
  destruct (String.eqb key "y") eqn:Ey.
  { apply String.eqb_eq in Ey. subst key. repeat split; reflexivity. }
  destruct (String.eqb key "?") eqn:Eq.
  { apply String.eqb_eq in Eq. subst key. repeat split; reflexivity. }
  destruct (String.eqb key "ok") eqn:Eo; repeat split; reflexivity.
Qed.

Lemma filter_ext_eq {A : Type} (p q : A -> bool) l :
  (forall x, p x = q x) -> filter p l = filter q l.
Proof.
  intros H. induction l as [|x l IH]; simpl; [reflexivity|].
  rewrite H, IH. reflexivity.
Qed.

Lemma tally_buckets ws :
  tally ws = {| new := countBucket New ws; known := countBucket Known ws;
                forgotten := countBucket Forgotten ws;
                learned := countBucket Learned ws |}.
Proof.
  unfold tally, countKey, countBucket.
  apply ByFlag_eq; f_equal; apply filter_ext_eq; intros w; unfold inBucket;
    rewrite <- specBucket_flagKey;
    destruct (eqb_key_bucket (flagKey (flag w))) as [H1 [H2 [H3 H4]]];
    assumption.
Qed.

End Classification.

(** C4. For every word record the aggregators classify its flag as the
    specification says: normalise (absent or null to the empty string,
    otherwise to string and trim), lowercase, then match exactly; "n"
    counts as new, "y" as known, "?" as forgotten, "ok" as learned, and
    any other value counts in no bucket while the word still counts in
    [totalWords].  Flags "N", "n" and " N " are all new; "maybe" and the
    empty flag are in no bucket. *)
Theorem flag_classification :
  (forall ts,
     calculateStatistics ts =
     {| totalTopics := List.length ts;
        totalWords := List.length (allWords ts);
        byFlag := {| new := countBucket New (allWords ts);
                     known := countBucket Known (allWords ts);
                     forgotten := countBucket Forgotten (allWords ts);
                     learned := countBucket Learned (allWords ts) |} |})
  /\ (forall ts,
        calculateTopicStatistics ts =
        {| topicTotalWords := List.length (allWords ts);
           topicByFlag := {| new := countBucket New (allWords ts);
                             known := countBucket Known (allWords ts);
                             forgotten := countBucket Forgotten (allWords ts);
                             learned := countBucket Learned (allWords ts) |} |})
  /\ (forall key,
        specBucket key = Some New <-> key = "n")
  /\ (forall key, specBucket key = Some Known <-> key = "y")
  /\ (forall key, specBucket key = Some Forgotten <-> key = "?")
  /\ (forall key, specBucket key = Some Learned <-> key = "ok")
  /\ (let one := {| new := 1; known := 0; forgotten := 0; learned := 0 |} in
      let stats f := calculateStatistics (oneWord f) in
      byFlag (stats (JStr "N")) = one
      /\ byFlag (stats (JStr "n")) = one
      /\ byFlag (stats (JStr " N ")) = one
      /\ stats (JStr "maybe")
         = {| totalTopics := 1; totalWords := 1; byFlag := zeroByFlag |}
      /\ stats (JStr "")
         = {| totalTopics := 1; totalWords := 1; byFlag := zeroByFlag |}
      /\ stats JNull
         = {| totalTopics := 1; totalWords := 1; byFlag := zeroByFlag |}
      /\ stats JUndefined
         = {| totalTopics := 1; totalWords := 1; byFlag := zeroByFlag |}).
Proof.
  split; [|split].
  - intros ts. rewrite calculateStatistics_eq, tally_buckets. reflexivity.
  - intros ts. rewrite calculateTopicStatistics_eq, tally_buckets. reflexivity.
  - assert (K : forall key b lit,
               (String.eqb key lit = true -> specBucket key = Some b) ->
               (specBucket key = Some b -> String.eqb key lit = true) ->
               specBucket key = Some b <-> key = lit).
    { intros key b lit H1 H2. split.
      - intros H. apply String.eqb_eq. auto.
      - intros ->. apply H1. apply String.eqb_refl. }
    repeat split; try reflexivity;
      try (apply K; unfold specBucket;
           [ intros E; apply String.eqb_eq in E; subst key; reflexivity
           | destruct (String.eqb key "n") eqn:En;
             [apply String.eqb_eq in En; subst key; intros [=]; reflexivity|];
             destruct (String.eqb key "y") eqn:Ey;
             [apply String.eqb_eq in Ey; subst key; intros [=]; reflexivity|];
             destruct (String.eqb key "?") eqn:Eq;
             [apply String.eqb_eq in Eq; subst key; intros [=]; reflexivity|];
             destruct (String.eqb key "ok") eqn:Eo;
             [apply String.eqb_eq in Eo; subst key; intros [=]; reflexivity|];
             discriminate ]).
Qed.

Section OrderIndependence.

Lemma countKey_Permutation key ws ws' :
  Permutation ws ws' -> countKey key ws = countKey key ws'.
Proof.
  induction 1 as [|w ws ws' _ IH|w1 w2 ws|ws1 ws2 ws3 _ IH1 _ IH2].
  - reflexivity.
  - rewrite !countKey_cons, IH. reflexivity.
  - rewrite !countKey_cons. lia.
  - congruence.
Qed.

Lemma tally_Permutation ws ws' : Permutation ws ws' -> tally ws = tally ws'.
Proof.
  intros H. unfold tally. apply ByFlag_eq; apply countKey_Permutation; exact H.
Qed.

Lemma allWords_sameWords ts ts' :
  Forall2 sameWords ts ts' -> Permutation (allWords ts) (allWords ts').
Proof.
  induction 1 as [|t t' ts ts' Ht _ IH]; simpl.
  - constructor.
  - apply Permutation_app; assumption.
Qed.

Lemma allWords_Permutation ts ts' :
  Permutation ts ts' -> Permutation (allWords ts) (allWords ts').
Proof. apply Permutation_flat_map. Qed.

Lemma Forall2_same_length {A B : Type} (R : A -> B -> Prop) l l' :
  Forall2 R l l' -> List.length l = List.length l'.
Proof. induction 1; simpl; congruence. Qed.

End OrderIndependence.

(** C9. [calculateStatistics] is a pure fold whose counts do not depend on
    order: reordering the words inside the topics ([ts] to [ts1]) and then
    the topics themselves ([ts1] to [ts2]) leaves the statistics unchanged,
    and so does running it again on topics whose [statistics] field has
    been filled in by the transform. *)
Theorem statistics_order_independent (ts ts1 ts2 : list Topic)
    (Hwords : Forall2 sameWords ts ts1)
    (Htopics : Permutation ts1 ts2) :
  calculateStatistics ts2 = calculateStatistics ts
  /\ calculateStatistics (map setStatistics ts) = calculateStatistics ts.
Proof.
  rewrite !calculateStatistics_eq. split.
  - assert (P : Permutation (allWords ts) (allWords ts2)).
    { eapply Permutation_trans.
      - apply allWords_sameWords. exact Hwords.
      - apply allWords_Permutation. exact Htopics. }
    rewrite <- (tally_Permutation _ _ P), <- (Permutation_length P).
    rewrite <- (Permutation_length Htopics).
    rewrite <- (Forall2_same_length _ _ _ Hwords). reflexivity.
  - rewrite allWords_setStatistics, length_map. reflexivity.
Qed.

Lemma statistics_order_independent_witness :
  let a := sampleWord 1 "N" "apple" in
  let b := sampleWord 2 "Y" "banana" in
  let c := sampleWord 3 "ok" "cherry" in
  calculateStatistics [sampleTopic "T2" [c]; sampleTopic "T1" [b; a]]
  = calculateStatistics [sampleTopic "T1" [a; b]; sampleTopic "T2" [c]]
  /\ calculateStatistics
       (map setStatistics [sampleTopic "T1" [a; b]; sampleTopic "T2" [c]])
     = calculateStatistics [sampleTopic "T1" [a; b]; sampleTopic "T2" [c]].
Proof.
  intros a b c.
  apply (statistics_order_independent
           [sampleTopic "T1" [a; b]; sampleTopic "T2" [c]]
           [sampleTopic "T1" [b; a]; sampleTopic "T2" [c]]
           [sampleTopic "T2" [c]; sampleTopic "T1" [b; a]]).
  - constructor; [apply perm_swap|].
    constructor; [apply Permutation_refl|]. constructor.
  - apply perm_swap.
Defined.

(** C10. On every topic list [calculateTopicStatistics] computes the same
    [totalWords] and [byFlag] as [calculateStatistics], the only difference
    being the missing [totalTopics]; in particular the statistics the
    transform stores in a topic are those of the worksheet-level aggregator
    applied to that topic alone. *)
Theorem topic_statistics_agree :
  (forall ts,
     topicTotalWords (calculateTopicStatistics ts)
     = totalWords (calculateStatistics ts)
     /\ topicByFlag (calculateTopicStatistics ts)
        = byFlag (calculateStatistics ts))
  /\ (forall t,
        statistics (setStatistics t)
        = Some {| topicTotalWords := totalWords (calculateStatistics [t]);
                  topicByFlag := byFlag (calculateStatistics [t]) |}).
Proof.
  split.
  - intros ts. rewrite calculateStatistics_eq, calculateTopicStatistics_eq.
    split; reflexivity.
  - intros t. unfold setStatistics. simpl statistics.
    rewrite calculateStatistics_eq, calculateTopicStatistics_eq. reflexivity.
Qed.

(** ** Claims on the orchestration *)

(** C5. [transformVocabData] returns its input as it is when the input is
    absent or has no worksheets; otherwise the output has one entry per
    input worksheet, and a worksheet with an error marker, or with absent or
    empty [values], is at its own position in the output, untouched and
    unparsed. *)
Theorem pass_through :
  transformVocabData None = Same None
  /\ (forall d,
        worksheets d = None \/ worksheets d = Some [] ->
        transformVocabData (Some d) = Same (Some d))
  /\ (forall d wss,
        worksheets d = Some wss -> wss <> [] ->
        exists doc,
          transformVocabData (Some d) = Document doc
          /\ List.length (out_worksheets doc) = List.length wss
          /\ forall k w,
               nth_error wss k = Some w ->
               truthy (ws_error w) = true \/ ws_values w = None
               \/ ws_values w = Some [] ->
               nth_error (out_worksheets doc) k = Some (Untouched w)).
Proof.
  split; [reflexivity|]. split.
  - intros d [H|H]; unfold transformVocabData; rewrite H; reflexivity.
  - intros d wss Hw Hne. exists (documentOf d wss). split.
    { apply transformVocabData_document; assumption. }
    split.
    { simpl. apply length_map. }
    intros k w Hk Hskip. simpl.
    rewrite (nth_error_map transformWorksheet k wss), Hk. simpl.
    rewrite transformWorksheet_untouched; [reflexivity|].
    unfold passesThrough.
    destruct Hskip as [H|[H|H]]; rewrite H; simpl;
      [reflexivity|apply orb_true_r|apply orb_true_r].
Qed.

Lemma pass_through_witness :
  exists doc,
    transformVocabData (Some (samplePayload JUndefined JUndefined JUndefined))
    = Document doc
    /\ nth_error (out_worksheets doc) 0 = Some (Untouched failedSheet).
Proof.
  destruct pass_through as [_ [_ H]].
  destruct (H (samplePayload JUndefined JUndefined JUndefined)
              [failedSheet; goodSheet] eq_refl)
    as [doc [E [_ Hk]]]; [discriminate|].
  exists doc. split; [exact E|].
  apply (Hk 0 failedSheet eq_refl). left. reflexivity.
Defined.

(** C6, counterexample.  A payload whose [_cachedAt] is the number 0 and
    whose [_fetchedAt] is the empty string: both are present on the input
    and neither reaches the output, because the source copies these two
    fields under a truthiness test. *)
Lemma metadata_falsy_not_copied :
  (exists doc,
     transformVocabData (Some (samplePayload (JBool false) (JNum 0) (JStr "")))
     = Document doc
     /\ out_cached doc = JBool false
     /\ out_cachedAt doc = JUndefined
     /\ out_fetchedAt doc = JUndefined)
  /\ ~ metadata_copied_when_present.
Proof.
  split.
  - eexists. split; [reflexivity|]. repeat split.
  - intros H.
    destruct (H (samplePayload (JBool false) (JNum 0) (JStr "")) _ eq_refl)
      as [_ [H1 _]].
    discriminate H1.
Qed.

(** C6, amended.  Whenever the input is not returned as it is, [_cached] is
    in the output with its input value unless it is undefined, [_cachedAt]
    and [_fetchedAt] are in the output with their input values when those
    are truthy and are absent otherwise, and the other output fields are
    computed from [fileName], [fileSize] and [worksheets] alone. *)
Theorem metadata_propagation (d : ExcelData) (wss : list Worksheet)
    (Hw : worksheets d = Some wss) (Hne : wss <> []) :
  exists doc,
    transformVocabData (Some d) = Document doc
    /\ out_cached doc = _cached d
    /\ out_cachedAt doc
       = (if truthy (_cachedAt d) then _cachedAt d else JUndefined)
    /\ out_fetchedAt doc
       = (if truthy (_fetchedAt d) then _fetchedAt d else JUndefined)
    /\ out_fileName doc = fileName d
    /\ out_fileSize doc = fileSize d
    /\ out_worksheets doc = map transformWorksheet wss.
Proof.
  exists (documentOf d wss). split.
  - apply transformVocabData_document; assumption.
  - repeat split.
Qed.

Lemma metadata_propagation_witness :
  exists doc,
    transformVocabData
      (Some (samplePayload (JBool true) (JStr "2026-02-09T10:00:00Z")
                           JUndefined))
    = Document doc
    /\ out_cached doc = JBool true
    /\ out_cachedAt doc = JStr "2026-02-09T10:00:00Z"
    /\ out_fetchedAt doc = JUndefined
    /\ out_fileName doc = JStr "vocab.xlsx"
    /\ out_fileSize doc = JNum 2048
    /\ out_worksheets doc = map transformWorksheet [failedSheet; goodSheet].
Proof.
  apply (metadata_propagation
           (samplePayload (JBool true) (JStr "2026-02-09T10:00:00Z")
                          JUndefined)
           [failedSheet; goodSheet]).
  - reflexivity.
  - discriminate.
Defined.

(** ** Claims on the row grouping parser *)

Section GridFacts.

Lemma skipn_prefix {A : Type} h (pre rest : list A) :
  h <= List.length pre -> skipn h (pre ++ rest) = skipn h pre ++ rest.
Proof.
  intros H. rewrite skipn_app.
  replace (h - List.length pre) with 0 by lia. reflexivity.
Qed.

(** Running the loop up to and including the row that follows [pre]. *)
Lemma parseLoop_upto h pre row post :
  h <= List.length pre ->
  parseLoop h (skipn h (pre ++ row :: post)) initState
  = parseLoop (S (List.length pre)) post
      (parseRow (List.length pre) row (parseLoop h (skipn h pre) initState)).
Proof.
  intros H. rewrite (skipn_prefix h pre (row :: post) H), parseLoop_app.
  rewrite length_skipn, parseLoop_cons.
  replace (h + (List.length pre - h)) with (List.length pre) by lia.
  reflexivity.
Qed.

Lemma getCell_specNormalize cells k :
  getCell (Some cells) k = specNormalize (nth k cells JUndefined).
Proof.
  unfold getCell. destruct (List.length cells <=? k) eqn:L.
  - apply Nat.leb_le in L. rewrite (nth_overflow cells JUndefined L).
    reflexivity.
  - cbv zeta. destruct (nth k cells JUndefined); reflexivity.
Qed.

End GridFacts.

(** C1. A row whose column-B cell is non-empty after trimming (such a row
    is never an empty row) starts a new topic: when the loop reaches it at
    index [i], the current topic, if there is one, is pushed to the output
    whatever its number of words, and the new current topic has the trimmed
    column-B value as its name, [i + 1] as its [startRow], and as its words
    the record of this very row when column D holds a word.  In the result
    of [parseTopics] the topics pushed so far come first, then the closed
    topic, then the new one, whose words begin with this row's word. *)
Theorem topic_start_row (pre post : list Row) (row : Row)
    (HB : getCell row 1 <> "")
    (Hoff : headerOffset (pre ++ row :: post) <= List.length pre) :
  let rows := pre ++ row :: post in
  let i := List.length pre in
  let h := headerOffset rows in
  let before := parseLoop h (skipn h pre) initState in
  let started :=
    {| name := getCell row 1; startRow := i + 1;
       words := match parseWord row (i + 1) with
                | Some w => [w]
                | None => []
                end;
       statistics := None |} in
  isEmptyRow row = false
  /\ trim (getCell row 1) = getCell row 1
  /\ parseRow i row before = (pushTopic (fst before) (snd before), Some started)
  /\ exists more rest,
       parseTopics rows
       = pushTopic (fst before) (snd before) ++ addWords started more :: rest.
Proof.
  intros rows i h before started.
  split; [apply (getCell_nonempty_row row 1 HB)|].
  split; [apply getCell_trimmed|].
  assert (E : parseRow i row before
              = (pushTopic (fst before) (snd before), Some started)).
  { destruct before as [topics cur]. apply parseRow_marker. exact HB. }
  split; [exact E|].
  unfold rows. rewrite parseTopics_eq.
  fold rows. fold h. unfold rows.
  rewrite (parseLoop_upto h pre row post Hoff).
  fold i. fold before. rewrite E.
  apply parseLoop_extends.
Qed.

Lemma topic_start_row_witness :
  exists more rest,
    parseTopics [ Some [JStr "Order"; JStr "Topic"; JStr "Flag"; JStr "Word"];
                  Some [JNum 1; JStr "T1"];
                  Some [JNum 2; JStr " T2 "; JStr "N"; JStr " apple "];
                  Some [JNum 3; JNull; JStr "Y"; JStr "banana"] ]
    = [ {| name := "T1"; startRow := 2; words := []; statistics := None |} ]
      ++ addWords
           {| name := "T2"; startRow := 3;
              words := [wordOfRow (Some [JNum 2; JStr " T2 "; JStr "N";
                                         JStr " apple "]) 3];
              statistics := None |} more
         :: rest.
Proof.
  apply (topic_start_row
           [ Some [JStr "Order"; JStr "Topic"; JStr "Flag"; JStr "Word"];
             Some [JNum 1; JStr "T1"] ]
           [ Some [JNum 3; JNull; JStr "Y"; JStr "banana"] ]
           (Some [JNum 2; JStr " T2 "; JStr "N"; JStr " apple "])).
  - discriminate.
  - vm_compute. lia.
Defined.

Section HeaderFacts.

Lemma isHeaderRow_iff row :
  isHeaderRow row = true <->
  toLowerCase (getCell row 0) = "order"
  \/ toLowerCase (getCell row 1) = "topic"
  \/ toLowerCase (getCell row 1) = "session".
Proof.
  assert (G : forall r : Row,
             String.eqb (toLowerCase (getCell r 0)) "order"
             || String.eqb (toLowerCase (getCell r 1)) "topic"
             || String.eqb (toLowerCase (getCell r 1)) "session" = true <->
             toLowerCase (getCell r 0) = "order"
             \/ toLowerCase (getCell r 1) = "topic"
             \/ toLowerCase (getCell r 1) = "session").
  { intros r. rewrite !orb_true_iff, !String.eqb_eq. tauto. }
  destruct row as [cells|].
  - unfold isHeaderRow. destruct (List.length cells =? 0) eqn:Z.
    + apply Nat.eqb_eq in Z. destruct cells; [|discriminate Z].
      split; [discriminate|]. intros [H|[H|H]]; discriminate H.
    + cbv zeta. apply G.
  - split; [discriminate|]. intros [H|[H|H]]; discriminate H.
Qed.

Lemma headerOffset_cons row rest :
  headerOffset (row :: rest) = if isHeaderRow row then 1 else 0.
Proof. reflexivity. Qed.

End HeaderFacts.

(** C7. Row 0 is left out of the loop exactly when it looks like a header,
    that is when its first cell, normalised and lowercased, is "order" or
    its second is "topic" or "session": the loop then starts at index 1,
    and otherwise it starts by processing row 0.  A row all of whose cells
    are null, undefined or whitespace-only is skipped: the loop state after
    it is the loop state before it, so no topic is closed or started and no
    word is added. *)
Theorem header_and_empty_rows :
  (forall row,
     isHeaderRow row = true <->
     toLowerCase (getCell row 0) = "order"
     \/ toLowerCase (getCell row 1) = "topic"
     \/ toLowerCase (getCell row 1) = "session")
  /\ (forall row rest,
        isHeaderRow row = true ->
        headerOffset (row :: rest) = 1
        /\ parseTopics (row :: rest)
           = stateTopics (parseLoop 1 rest initState))
  /\ (forall row rest,
        isHeaderRow row = false ->
        headerOffset (row :: rest) = 0
        /\ parseTopics (row :: rest)
           = stateTopics (parseLoop 1 rest (parseRow 0 row initState)))
  /\ (forall cells,
        Forall blankCell cells ->
        isEmptyRow (Some cells) = true
        /\ forall i st, parseRow i (Some cells) st = st).
Proof.
  split; [exact isHeaderRow_iff|]. split; [|split].
  - intros row rest H. rewrite parseTopics_eq, headerOffset_cons, H.
    split; reflexivity.
  - intros row rest H. rewrite parseTopics_eq, headerOffset_cons, H.
    split; reflexivity.
  - intros cells H. pose proof (blank_row_isEmptyRow cells H) as E.
    split; [exact E|]. intros i st. apply parseRow_empty. exact E.
Qed.

Lemma header_and_empty_rows_witness :
  parseTopics [ Some [JStr " ORDER"; JStr "Session"; JStr "Flag"; JStr "Word"];
                Some [JNum 1; JStr "T1"; JStr "ok"; JStr "apple"] ]
  = stateTopics
      (parseLoop 1 [Some [JNum 1; JStr "T1"; JStr "ok"; JStr "apple"]]
                 initState)
  /\ parseRow 5 (Some [JStr ""; JNull; JStr "   "; JUndefined])
       ([], Some (sampleTopic "T1" []))
     = ([], Some (sampleTopic "T1" [])).
Proof.
  destruct header_and_empty_rows as [_ [Hh [_ He]]]. split.
  - apply (Hh (Some [JStr " ORDER"; JStr "Session"; JStr "Flag"; JStr "Word"])).
    reflexivity.
  - apply (He [JStr ""; JNull; JStr "   "; JUndefined]).
    apply Forall_cons.
    { right; right. exists "". split; reflexivity. }
    apply Forall_cons; [left; reflexivity|].
    apply Forall_cons.
    { right; right. exists "   ". split; reflexivity. }
    apply Forall_cons; [right; left; reflexivity|].
    apply Forall_nil.
Defined.

(** C8. Every word record in the output of [parseTopics] was built by
    [parseWord] from the row at index [rowNumber - 1] of the original grid,
    a row at or after the start offset whose column-D cell is non-empty
    after trimming, and its [word] is that trimmed value; conversely every
    such row has its record, numbered with its 1-based position, in the
    output.  [parseWord] returns no record exactly when the normalised
    column-D cell is empty. *)
Theorem row_attribution (rows : list Row) :
  (forall t w,
     In t (parseTopics rows) -> In w (words t) ->
     exists i row,
       nth_error rows i = Some row
       /\ headerOffset rows <= i
       /\ rowNumber w = i + 1
       /\ getCell row 3 <> ""
       /\ word w = getCell row 3
       /\ parseWord row (i + 1) = Some w)
  /\ (forall i row,
        nth_error rows i = Some row ->
        headerOffset rows <= i ->
        getCell row 3 <> "" ->
        exists t w,
          In t (parseTopics rows) /\ In w (words t)
          /\ parseWord row (i + 1) = Some w
          /\ rowNumber w = i + 1
          /\ word w = getCell row 3)
  /\ (forall row n,
        (parseWord row n = None <-> getCell row 3 = "")
        /\ forall w, parseWord row n = Some w ->
                     rowNumber w = n /\ word w = getCell row 3
                     /\ getCell row 3 <> "")
  /\ (forall cells k,
        getCell (Some cells) k = specNormalize (nth k cells JUndefined))
  /\ allWords (parseTopics rows)
     = gridWords (headerOffset rows) (skipn (headerOffset rows) rows).
Proof.
  split; [|split; [|split; [|split]]].
  - intros t w Ht Hw.
    assert (Hin : In w (allWords (parseTopics rows))).
    { apply In_allWords. exists t. split; assumption. }
    rewrite allWords_parseTopics in Hin.
    apply In_gridWords in Hin. destruct Hin as [k [row [Hk Hp]]].
    rewrite nth_error_skipn in Hk.
    exists (headerOffset rows + k), row.
    destruct (parseWord_Some _ _ _ Hp) as [Hne ->].
    repeat split; try assumption; try lia; try reflexivity.
  - intros i row Hi Hoff Hne.
    assert (Hp : parseWord row (i + 1) = Some (wordOfRow row (i + 1))).
    { rewrite parseWord_eq. apply String.eqb_neq in Hne. rewrite Hne.
      reflexivity. }
    assert (Hin : In (wordOfRow row (i + 1)) (allWords (parseTopics rows))).
    { rewrite allWords_parseTopics. apply In_gridWords.
      exists (i - headerOffset rows), row. split.
      - rewrite nth_error_skipn.
        replace (headerOffset rows + (i - headerOffset rows)) with i by lia.
        exact Hi.
      - replace (headerOffset rows + (i - headerOffset rows)) with i by lia.
        exact Hp. }
    apply In_allWords in Hin. destruct Hin as [t [Ht Hw]].
    exists t, (wordOfRow row (i + 1)).
    repeat split; assumption || reflexivity.
  - intros row n. split; [apply parseWord_None|].
    intros w Hw. destruct (parseWord_Some _ _ _ Hw) as [Hne ->].
    repeat split; try reflexivity. exact Hne.
  - apply getCell_specNormalize.
  - apply allWords_parseTopics.
Qed.

Lemma row_attribution_witness :
  exists t w,
    In t (parseTopics
            [ Some [JStr "Order"; JStr "Topic"; JStr "Flag"; JStr "Word"];
              None;
              Some [JNum 1; JStr "T1"; JStr "N"];
              Some [JStr " "];
              Some [JNum 2; JNull; JStr "Y"; JStr " banana "] ])
    /\ In w (words t)
    /\ parseWord (Some [JNum 2; JNull; JStr "Y"; JStr " banana "]) (4 + 1)
       = Some w
    /\ rowNumber w = 4 + 1
    /\ word w = getCell (Some [JNum 2; JNull; JStr "Y"; JStr " banana "]) 3.
Proof.
  apply (proj1 (proj2
           (row_attribution
              [ Some [JStr "Order"; JStr "Topic"; JStr "Flag"; JStr "Word"];
                None;
                Some [JNum 1; JStr "T1"; JStr "N"];
                Some [JStr " "];
                Some [JNum 2; JNull; JStr "Y"; JStr " banana "] ]))).
  - reflexivity.
  - vm_compute. lia.
  - discriminate.
Defined.

(** *** Where each topic comes from *)

Section TopicOrigin.

Variable h : nat.
Variable body : list Row.

(** Invariants of the loop over [body], which starts at index [h]: what
    holds initially and is preserved by each iteration holds at the end. *)
Lemma parseLoop_invariant (Inv : nat -> ParseState -> Prop) :
  Inv 0 initState ->
  (forall k r st,
     nth_error body k = Some r -> Inv k st ->
     Inv (S k) (parseRow (h + k) r st)) ->
  Inv (List.length body) (parseLoop h body initState).
Proof.
  intros H0 Hstep.
  assert (G : forall rest pre st,
             body = pre ++ rest -> Inv (List.length pre) st ->
             Inv (List.length body)
                 (parseLoop (h + List.length pre) rest st)).
  { induction rest as [|r rest IH]; intros pre st E HI.
    - rewrite app_nil_r in E. subst pre. exact HI.
    - rewrite parseLoop_cons.
      replace (S (h + List.length pre))
        with (h + List.length (pre ++ [r]))
        by (rewrite length_app; simpl; lia).
      apply IH.
      + rewrite <- app_assoc. exact E.
      + rewrite length_app. simpl. rewrite Nat.add_1_r.
        apply Hstep; [|exact HI].
        rewrite E, nth_error_app2 by lia.
        rewrite Nat.sub_diag. reflexivity. }
  specialize (G body [] initState eq_refl H0).
  simpl in G. rewrite Nat.add_0_r in G. exact G.
Qed.

Lemma In_pushTopic t topics cur :
  In t (pushTopic topics cur) <-> In t topics \/ cur = Some t.
Proof.
  destruct cur as [c|]; simpl.
  - rewrite in_app_iff. simpl. split.
    + intros [H|[H|[]]]; [left; exact H|right; congruence].
    + intros [H|H]; [left; exact H|]. right. left. congruence.
  - split; [intros H; left; exact H|]. intros [H|H]; [exact H|discriminate].
Qed.

Lemma originInv_step k r st :
  nth_error body k = Some r -> originInv h body k st ->
  originInv h body (S k) (parseRow (h + k) r st).
Proof.
  intros Hk [Hall Hnone]. destruct st as [topics cur].
  rewrite parseRow_eq. destruct (isEmptyRow r) eqn:Er.
  { split; [exact Hall|]. intros Hc. destruct (Hnone Hc) as [Ht He].
    split; [exact Ht|]. intros j r' Hj Hr'.
    destruct (Nat.eq_dec j k) as [->|Hjk].
    - rewrite Hk in Hr'. injection Hr' as <-. exact Er.
    - apply (He j r'); [lia|exact Hr']. }
  destruct (String.eqb (getCell r 1) "") eqn:Eb.
  - apply String.eqb_eq in Eb. destruct cur as [c|].
    + split; [|discriminate]. intros t Ht.
      apply In_pushTopic in Ht. simpl fst in Ht; simpl snd in Ht.
      destruct Ht as [Ht|Ht].
      * apply Hall. apply In_pushTopic. left. exact Ht.
      * injection Ht as <-. simpl.
        apply (Hall c). apply In_pushTopic. right. reflexivity.
    + destruct (Hnone eq_refl) as [Ht He]. simpl in Ht. subst topics.
      split; [|discriminate]. intros t Ht.
      apply In_pushTopic in Ht. simpl fst in Ht; simpl snd in Ht.
      destruct Ht as [[]|Ht]. injection Ht as <-. simpl.
      exists k, r. repeat split; try assumption.
      right. repeat split; assumption.
  - apply String.eqb_neq in Eb.
    split; [|discriminate]. intros t Ht.
    apply In_pushTopic in Ht. simpl fst in Ht; simpl snd in Ht.
    destruct Ht as [Ht|Ht].
    + apply Hall. exact Ht.
    + injection Ht as <-. simpl.
      exists k, r. repeat split; try assumption.
      left. split; [exact Eb|reflexivity].
Qed.

Lemma originInv_final :
  originInv h body (List.length body) (parseLoop h body initState).
Proof.
  apply (parseLoop_invariant (originInv h body)).
  - split.
    + intros t [].
    + intros _. split; [reflexivity|]. intros j r Hj. lia.
  - apply originInv_step.
Qed.

End TopicOrigin.

(** C3, counterexample.  A grid whose only row has an order number and a
    flag but neither topic name nor word: the "Uncategorized" topic is
    emitted, with no words, although the grid has no word row.  With a word
    row after it, the topic's [startRow] is 1, not the word row's index. *)
Lemma uncategorized_without_word_row :
  parseTopics [Some [JNum 1; JStr ""; JStr "N"; JStr ""]]
  = [ {| name := "Uncategorized"; startRow := 1; words := [];
         statistics := None |} ]
  /\ map (fun t => (name t, startRow t, map rowNumber (words t)))
         (parseTopics [ Some [JNum 1; JStr ""; JStr "N"; JStr ""];
                        Some [JNum 2; JStr ""; JStr "N"; JStr "apple"] ])
     = [("Uncategorized", 1, [2])]
  /\ ~ uncategorized_only_for_word_rows.
Proof.
  split; [reflexivity|]. split; [reflexivity|].
  intros H.
  destruct (H [Some [JNum 1; JStr ""; JStr "N"; JStr ""]]
              {| name := "Uncategorized"; startRow := 1; words := [];
                 statistics := None |})
    as [i [row [Hi [_ [Hd _]]]]].
  - left. reflexivity.
  - reflexivity.
  - destruct i as [|i].
    + injection Hi as <-. apply Hd. reflexivity.
    + destruct i; discriminate Hi.
Qed.

(** C3, amended.  The synthetic "Uncategorized" topic is emitted exactly
    when the first non-empty row at or after the start offset has an empty
    column-B cell, whether or not its column D holds a word: it is then the
    first topic of the output, its [startRow] is that row's 1-based index
    and its words begin with the row's word when there is one.  Every topic
    of the output is started either by a topic-marker row, whose trimmed
    column B is its name, or in this way. *)
Theorem uncategorized_topic (rows : list Row) :
  (forall pre row post,
     rows = pre ++ row :: post ->
     headerOffset rows <= List.length pre ->
     (forall r, In r (skipn (headerOffset rows) pre) -> isEmptyRow r = true) ->
     isEmptyRow row = false ->
     getCell row 1 = "" ->
     exists more rest,
       parseTopics rows
       = {| name := "Uncategorized";
            startRow := List.length pre + 1;
            words := match parseWord row (List.length pre + 1) with
                     | Some w => [w]
                     | None => []
                     end ++ more;
            statistics := None |} :: rest)
  /\ (forall t,
        In t (parseTopics rows) ->
        exists i row,
          nth_error rows i = Some row
          /\ headerOffset rows <= i
          /\ isEmptyRow row = false
          /\ startRow t = i + 1
          /\ ((getCell row 1 <> "" /\ name t = getCell row 1)
              \/ (getCell row 1 = "" /\ name t = "Uncategorized"
                  /\ forall j r,
                       headerOffset rows <= j -> j < i ->
                       nth_error rows j = Some r -> isEmptyRow r = true))).
Proof.
  split.
  - intros pre row post E Hoff Hpre Hrow HB.
    subst rows. rewrite parseTopics_eq.
    rewrite (parseLoop_upto _ pre row post Hoff).
    rewrite (parseLoop_all_empty _ _ _ Hpre).
    unfold initState. rewrite parseRow_eq, Hrow, HB. simpl String.eqb.
    cbv iota.
    destruct (parseLoop_extends post (S (List.length pre)) []
                (newTopic "Uncategorized" (List.length pre)
                          (rowWords row (List.length pre))))
      as [more [rest Hx]].
    exists more, rest. rewrite Hx. reflexivity.
  - intros t Ht. rewrite parseTopics_eq in Ht.
    destruct (originInv_final (headerOffset rows)
                (skipn (headerOffset rows) rows)) as [Hall _].
    destruct (Hall t Ht) as [j [r [Hj [Hr [Hs Hor]]]]].
    rewrite nth_error_skipn in Hj.
    exists (headerOffset rows + j), r.
    repeat split; try assumption; try lia.
    destruct Hor as [Hm|[Hb [Hn He]]]; [left; exact Hm|].
    right. repeat split; try assumption.
    intros j' r' H1 H2 H3.
    apply (He (j' - headerOffset rows) r'); [lia|].
    rewrite nth_error_skipn.
    replace (headerOffset rows + (j' - headerOffset rows)) with j' by lia.
    exact H3.
Qed.

Lemma uncategorized_topic_witness :
  exists more rest,
    parseTopics [ Some [JStr "Order"; JStr "Topic"; JStr "Flag"; JStr "Word"];
                  Some [JNull; JStr "  "];
                  Some [JNum 1; JStr ""; JStr "N"; JStr "apple"];
                  Some [JNum 2; JStr "T1"; JStr "Y"; JStr "banana"] ]
    = {| name := "Uncategorized"; startRow := 2 + 1;
         words := match parseWord (Some [JNum 1; JStr ""; JStr "N";
                                         JStr "apple"]) (2 + 1) with
                  | Some w => [w]
                  | None => []
                  end ++ more;
         statistics := None |} :: rest.
Proof.
  apply (proj1 (uncategorized_topic _)
           [ Some [JStr "Order"; JStr "Topic"; JStr "Flag"; JStr "Word"];
             Some [JNull; JStr "  "] ]
           (Some [JNum 1; JStr ""; JStr "N"; JStr "apple"])
           [ Some [JNum 2; JStr "T1"; JStr "Y"; JStr "banana"] ]).
  - reflexivity.
  - vm_compute. lia.
  - intros r Hr. vm_compute in Hr. destruct Hr as [<-|[]]. reflexivity.
  - reflexivity.
  - reflexivity.
Defined.

(** * Further properties of the transformer *)

Section Counting.

Lemma countBucket_cons b w ws :
  countBucket b (w :: ws)
  = (if inBucket b w then 1 else 0) + countBucket b ws.
Proof. unfold countBucket. simpl. destruct (inBucket b w); reflexivity. Qed.

Lemma uncounted_cons w ws :
  uncounted (w :: ws)
  = match specClassify (flag w) with None => 1 | Some _ => 0 end
    + uncounted ws.
Proof.
  unfold uncounted. simpl. destruct (specClassify (flag w)); reflexivity.
Qed.

Lemma bucket_split ws :
  countBucket New ws + countBucket Known ws + countBucket Forgotten ws
  + countBucket Learned ws + uncounted ws = List.length ws.
Proof.
  induction ws as [|w ws IH]; [reflexivity|].
  rewrite !countBucket_cons, uncounted_cons. unfold inBucket.
  destruct (specClassify (flag w)) as [[]|]; simpl; lia.
Qed.

Lemma length_rowWords row i :
  List.length (rowWords row i) = if hasWord row then 1 else 0.
Proof.
  unfold rowWords, hasWord. rewrite parseWord_eq.
  destruct (String.eqb (getCell row 3) ""); reflexivity.
Qed.

Lemma length_gridWords rows : forall i,
  List.length (gridWords i rows) = List.length (filter hasWord rows).
Proof.
  induction rows as [|r rows IH]; intros i; simpl; [reflexivity|].
  rewrite length_app, length_rowWords, IH.
  destruct (hasWord r); reflexivity.
Qed.

Lemma isMarker_empty r : isEmptyRow r = true -> isMarker r = false.
Proof.
  intros H. unfold isMarker. rewrite (isEmptyRow_getCell r 1 H). reflexivity.
Qed.

Lemma length_pushTopic topics cur :
  List.length (pushTopic topics cur)
  = List.length topics + match cur with Some _ => 1 | None => 0 end.
Proof.
  destruct cur; simpl; [rewrite length_app; reflexivity|lia].
Qed.

(** The loop adds one topic per marker row, and one more for the first
    non-empty row when there is no current topic and that row is no
    marker. *)
Lemma length_parseLoop rows : forall i st,
  List.length (stateTopics (parseLoop i rows st))
  = List.length (stateTopics st) + List.length (filter isMarker rows)
    + match snd st with
      | Some _ => 0
      | None => if startsUncategorized rows then 1 else 0
      end.
Proof.
  induction rows as [|r rows IH]; intros i [topics cur].
  - simpl. destruct cur; simpl; lia.
  - rewrite parseLoop_cons, IH, parseRow_eq. unfold startsUncategorized.
    simpl filter. simpl find.
    destruct (isEmptyRow r) eqn:Er.
    + rewrite (isMarker_empty r Er). simpl. reflexivity.
    + unfold isMarker. simpl negb.
      destruct (String.eqb (getCell r 1) "") eqn:Eb; simpl negb; cbv iota.
      * destruct cur; unfold stateTopics; simpl fst; simpl snd;
          rewrite !length_pushTopic, ?Eb; simpl negb; cbv iota; lia.
      * unfold stateTopics; simpl fst; simpl snd.
        rewrite !length_pushTopic, ?Eb. simpl List.length.
        destruct cur; simpl negb; cbv iota; lia.
Qed.

End Counting.

(** X1. Every word is counted in at most one bucket: in the result of
    either aggregator the four [byFlag] counts and the number of words
    with an unrecognised flag add up to [totalWords], so the counts never
    exceed it. *)
Theorem buckets_partition_words (ts : list Topic) :
  byFlagTotal (byFlag (calculateStatistics ts)) + uncounted (allWords ts)
  = totalWords (calculateStatistics ts)
  /\ byFlagTotal (topicByFlag (calculateTopicStatistics ts))
     + uncounted (allWords ts)
     = topicTotalWords (calculateTopicStatistics ts)
  /\ byFlagTotal (byFlag (calculateStatistics ts))
     <= totalWords (calculateStatistics ts).
Proof.
  rewrite calculateStatistics_eq, calculateTopicStatistics_eq, tally_buckets.
  unfold byFlagTotal. simpl.
  pose proof (bucket_split (allWords ts)) as H. repeat split; lia.
Qed.

(** X3. The worksheet's [totalWords] is the number of rows, from the start
    offset on, whose normalised column-D cell is not empty: each such row
    is counted once, whatever topic it lands in. *)
Theorem total_words_counts_word_rows (rows : list Row) :
  totalWords (calculateStatistics (parseTopics rows))
  = List.length (filter hasWord (loopRows rows)).
Proof.
  rewrite calculateStatistics_eq. simpl.
  rewrite allWords_parseTopics. apply length_gridWords.
Qed.

(** X4. The number of topics, which is also the worksheet's [totalTopics],
    is the number of topic-marker rows from the start offset on, plus one
    when the first non-empty row there is not a marker. *)
Theorem total_topics_counts_markers (rows : list Row) :
  List.length (parseTopics rows)
  = List.length (filter isMarker (loopRows rows))
    + (if startsUncategorized (loopRows rows) then 1 else 0)
  /\ totalTopics (calculateStatistics (parseTopics rows))
     = List.length (parseTopics rows).
Proof.
  split.
  - rewrite parseTopics_eq, length_parseLoop. reflexivity.
  - rewrite calculateStatistics_eq. reflexivity.
Qed.

(** X7. A row is empty exactly when every one of its cells, at any column
    index, normalises to the empty string. *)
Theorem empty_row_iff (row : Row) :
  isEmptyRow row = true <-> forall k, getCell row k = "".
Proof.
  split; [intros H k; apply isEmptyRow_getCell; exact H|].
  intros H. destruct row as [cells|]; [|reflexivity].
  unfold isEmptyRow. destruct (List.length cells =? 0); [reflexivity|].
  apply forallb_forall. intros c Hc.
  destruct (In_nth cells c JUndefined Hc) as [k [Hk Hn]].
  specialize (H k). unfold getCell in H.
  apply Nat.leb_gt in Hk. rewrite Hk in H. cbv zeta in H. rewrite Hn in H.
  destruct c; try reflexivity; simpl in H |- *; rewrite H; reflexivity.
Qed.

Section NoTopics.

Lemma parseLoop_nonempty_state rest : forall j topics t,
  stateTopics (parseLoop j rest (topics, Some t)) <> [].
Proof.
  intros j topics t.
  destruct (parseLoop_extends rest j topics t) as [more [tail E]].
  rewrite E. destruct topics; discriminate.
Qed.

Lemma parseLoop_no_topics rows : forall i,
  stateTopics (parseLoop i rows initState) = [] ->
  forall r, In r rows -> isEmptyRow r = true.
Proof.
  induction rows as [|r rows IH]; intros i H r' Hr'; [contradiction|].
  rewrite parseLoop_cons in H. unfold initState in H.
  rewrite parseRow_eq in H.
  destruct (isEmptyRow r) eqn:Er.
  - destruct Hr' as [<-|Hr']; [exact Er|]. apply (IH (S i) H r' Hr').
  - exfalso.
    destruct (String.eqb (getCell r 1) ""); simpl in H;
      exact (parseLoop_nonempty_state _ _ _ _ H).
Qed.

End NoTopics.

(** X8. [parseTopics] returns no topic exactly when every row from the
    start offset on is empty; in particular on the empty grid and on a grid
    that holds only a header. *)
Theorem no_topics_iff (rows : list Row) :
  parseTopics rows = [] <->
  forall r, In r (loopRows rows) -> isEmptyRow r = true.
Proof.
  rewrite parseTopics_eq. split.
  - apply parseLoop_no_topics.
  - intros H. rewrite (parseLoop_all_empty _ _ _ H). reflexivity.
Qed.

Section StoredStatistics.

Lemma transformWorksheet_inv w sw :
  transformWorksheet w = Structured sw ->
  exists values,
    ws_values w = Some values /\ values <> []
    /\ truthy (ws_error w) = false
    /\ sw_topics sw = map setStatistics (parseTopics values)
    /\ sw_statistics sw = calculateStatistics (parseTopics values).
Proof.
  intros H.
  destruct (passesThrough w) eqn:P.
  { rewrite (transformWorksheet_untouched w P) in H. discriminate H. }
  unfold passesThrough in P. apply orb_false_iff in P. destruct P as [He Hv].
  destruct (ws_values w) as [values|] eqn:V; [|discriminate Hv].
  assert (Hne : values <> []).
  { intros ->. discriminate Hv. }
  rewrite (transformWorksheet_structured w values He V Hne) in H.
  injection H as <-. exists values. repeat split; assumption.
Qed.

Lemma sumStoredStatistics_setStatistics ts :
  sumStoredStatistics (map setStatistics ts)
  = {| topicTotalWords := List.length (allWords ts);
       topicByFlag := tally (allWords ts) |}.
Proof.
  induction ts as [|t ts IH]; [reflexivity|].
  simpl map. unfold sumStoredStatistics in *. simpl fold_right. rewrite IH.
  unfold storedStatistics, setStatistics. simpl statistics.
  rewrite calculateTopicStatistics_eq. simpl.
  rewrite !app_nil_r, length_app, tally_app. reflexivity.
Qed.

End StoredStatistics.

(** X2. In a structured worksheet built by the transform every topic has
    its statistics filled in, and these add up, field by field, to the
    worksheet-level statistics: the per-topic [totalWords] sum to the
    worksheet's [totalWords] and so does each [byFlag] count. *)
Theorem topic_statistics_sum (w : Worksheet) (sw : StructuredWorksheet)
    (H : transformWorksheet w = Structured sw) :
  sumStoredStatistics (sw_topics sw)
  = {| topicTotalWords := totalWords (sw_statistics sw);
       topicByFlag := byFlag (sw_statistics sw) |}
  /\ Forall (fun t => statistics t
                      = Some {| topicTotalWords := List.length (words t);
                                topicByFlag := tally (words t) |})
            (sw_topics sw).
Proof.
  destruct (transformWorksheet_inv w sw H) as [values [_ [_ [_ [Ht Hs]]]]].
  rewrite Ht, Hs, sumStoredStatistics_setStatistics, calculateStatistics_eq.
  split; [reflexivity|].
  apply Forall_forall. intros t Hin. apply in_map_iff in Hin.
  destruct Hin as [t0 [<- _]]. unfold setStatistics. simpl.
  rewrite calculateTopicStatistics_eq. simpl. rewrite !app_nil_r.
  reflexivity.
Qed.

Lemma topic_statistics_sum_witness :
  exists sw,
    transformWorksheet goodSheet = Structured sw
    /\ sumStoredStatistics (sw_topics sw)
       = {| topicTotalWords := totalWords (sw_statistics sw);
            topicByFlag := byFlag (sw_statistics sw) |}.
Proof.
  eexists. split; [reflexivity|].
  apply (topic_statistics_sum goodSheet). reflexivity.
Defined.

Section Ordering.

Lemma rowWords_rowNumber r i w : In w (rowWords r i) -> rowNumber w = i + 1.
Proof.
  unfold rowWords. destruct (parseWord r (i + 1)) as [w'|] eqn:E;
    [|contradiction].
  intros [<-|[]]. apply parseWord_Some in E. destruct E as [_ ->].
  reflexivity.
Qed.

Lemma StronglySorted_snoc {A : Type} (R : A -> A -> Prop) l y :
  StronglySorted R l -> (forall x, In x l -> R x y) ->
  StronglySorted R (l ++ [y]).
Proof.
  induction 1 as [|a l Hs IH Ha]; intros Hy; simpl.
  - constructor; constructor.
  - constructor.
    + apply IH. intros x Hx. apply Hy. right. exact Hx.
    + apply Forall_app. split; [exact Ha|].
      constructor; [|constructor]. apply Hy. left. reflexivity.
Qed.

Lemma StronglySorted_snoc_inv {A : Type} (R : A -> A -> Prop) l y :
  StronglySorted R (l ++ [y]) ->
  StronglySorted R l /\ forall x, In x l -> R x y.
Proof.
  induction l as [|a l IH]; simpl; intros H.
  - split; [constructor|contradiction].
  - inversion H as [|? ? Hs Ha]; subst.
    destruct (IH Hs) as [Hl Hy]. apply Forall_app in Ha.
    destruct Ha as [Ha1 Ha2]. split.
    + constructor; assumption.
    + intros x [<-|Hx]; [|apply Hy; exact Hx].
      inversion Ha2; assumption.
Qed.

Lemma In_stateTopics_snoc t topics c :
  In t (stateTopics (topics, Some c)) <-> In t topics \/ t = c.
Proof.
  unfold stateTopics. simpl. rewrite in_app_iff. simpl.
  split; [intros [H|[H|[]]]; auto|intros [H|H]; auto].
Qed.

Lemma placedInv_step h body k r st :
  nth_error body k = Some r -> placedInv h k st ->
  placedInv h (S k) (parseRow (h + k) r st).
Proof.
  intros _ [Hs Hb]. destruct st as [topics cur].
  assert (Hmono : forall t, In t (stateTopics (topics, cur)) ->
            h < startRow t /\ startRow t <= h + S k
            /\ forall w, In w (words t) ->
                 startRow t <= rowNumber w /\ rowNumber w <= h + S k).
  { intros t Ht. destruct (Hb t Ht) as [H1 [H2 H3]].
    repeat split; try lia; destruct (H3 w H); lia. }
  assert (Hnew : forall nm,
            placedInv h (S k)
              (pushTopic topics cur,
               Some (newTopic nm (h + k) (rowWords r (h + k))))).
  { intros nm. split.
    - unfold stateTopics. simpl fst; simpl snd. simpl pushTopic at 1.
      apply StronglySorted_snoc; [exact Hs|].
      intros x Hx. destruct (Hb x Hx) as [H1 [H2 H3]].
      split; simpl; [lia|]. intros w Hw. destruct (H3 w Hw). lia.
    - intros t Ht. apply In_stateTopics_snoc in Ht.
      destruct Ht as [Ht| ->]; [apply Hmono; exact Ht|].
      simpl. repeat split; try lia;
        rewrite (rowWords_rowNumber _ _ _ H); lia. }
  rewrite parseRow_eq. destruct (isEmptyRow r).
  { split; [exact Hs|exact Hmono]. }
  destruct (String.eqb (getCell r 1) ""); [|apply Hnew].
  destruct cur as [c|]; [|apply (Hnew "Uncategorized")].
  unfold stateTopics in Hs. simpl in Hs.
  apply StronglySorted_snoc_inv in Hs. destruct Hs as [Hs Hc].
  assert (Hcb := Hb c (proj2 (In_stateTopics_snoc c topics c)
                         (or_intror eq_refl))).
  destruct Hcb as [C1 [C2 C3]].
  split.
  - unfold stateTopics. simpl.
    apply StronglySorted_snoc; [exact Hs|].
    intros x Hx. destruct (Hc x Hx) as [X1 X2]. split; simpl; assumption.
  - intros t Ht. apply In_stateTopics_snoc in Ht.
    destruct Ht as [Ht| ->].
    + apply Hmono. apply In_stateTopics_snoc. left. exact Ht.
    + simpl. repeat split; try lia;
        apply in_app_iff in H; destruct H as [H|H];
        try (destruct (C3 w H); lia);
        rewrite (rowWords_rowNumber _ _ _ H); lia.
Qed.

Lemma headerOffset_le rows : headerOffset rows <= List.length rows.
Proof.
  unfold headerOffset. destruct rows as [|r rows]; simpl; [lia|].
  destruct (isHeaderRow r); lia.
Qed.

Lemma gridWords_sorted rows : forall i,
  StronglySorted lt (map rowNumber (gridWords i rows))
  /\ forall w, In w (gridWords i rows) -> i < rowNumber w.
Proof.
  induction rows as [|r rows IH]; intros i; simpl.
  - split; [constructor|contradiction].
  - destruct (IH (S i)) as [Hs Hlt]. unfold rowWords.
    destruct (parseWord r (i + 1)) as [w|] eqn:E; simpl.
    + apply parseWord_Some in E. destruct E as [_ ->]. simpl. split.
      * constructor; [exact Hs|]. apply Forall_forall. intros n Hn.
        apply in_map_iff in Hn. destruct Hn as [w [<- Hw]].
        specialize (Hlt w Hw). lia.
      * intros w [<-|Hw]; [simpl; lia|]. specialize (Hlt w Hw). lia.
    + split; [exact Hs|]. intros w Hw. specialize (Hlt w Hw). lia.
Qed.

End Ordering.

(** X5. The topics come out in grid order and are never interleaved: each
    topic starts below the previous one and below all the words of the
    previous one; a topic's start row lies after the header offset and
    within the grid; each word belongs to a row at or below the start row
    of its topic; and over the whole output the row numbers of the words
    strictly increase. *)
Theorem topics_in_grid_order (rows : list Row) :
  StronglySorted liesBefore (parseTopics rows)
  /\ (forall t, In t (parseTopics rows) ->
        headerOffset rows < startRow t /\ startRow t <= List.length rows
        /\ forall w, In w (words t) ->
             startRow t <= rowNumber w /\ rowNumber w <= List.length rows)
  /\ StronglySorted lt (map rowNumber (allWords (parseTopics rows))).
Proof.
  pose proof (parseLoop_invariant (headerOffset rows) (loopRows rows)
                (placedInv (headerOffset rows))) as Hinv.
  assert (H : placedInv (headerOffset rows) (List.length (loopRows rows))
                (parseLoop (headerOffset rows) (loopRows rows) initState)).
  { apply Hinv.
    - split; [constructor|intros t []].
    - intros k r st. apply placedInv_step. }
  assert (L : headerOffset rows + List.length (loopRows rows)
              = List.length rows).
  { unfold loopRows. rewrite length_skipn.
    pose proof (headerOffset_le rows). lia. }
  destruct H as [Hs Hb]. rewrite parseTopics_eq.
  split; [exact Hs|]. split.
  { intros t Ht. specialize (Hb t Ht). rewrite L in Hb. exact Hb. }
  rewrite allWords_parseLoop. simpl.
  apply gridWords_sorted.
Qed.

(** X6. Every topic name in the output is a non-empty trimmed string, and
    every word record has a non-empty trimmed word, a string flag and all
    its other text fields in trimmed form. *)
Theorem output_is_normalised (rows : list Row) :
  forall t, In t (parseTopics rows) ->
    name t <> "" /\ trim (name t) = name t
    /\ forall w, In w (words t) -> normalisedWord w.
Proof.
  intros t Ht. split; [|split].
  - rewrite parseTopics_eq in Ht.
    destruct (originInv_final (headerOffset rows) (loopRows rows))
      as [Hall _].
    destruct (Hall t Ht) as [j [r [_ [_ [_ [[Hne ->]|[_ [-> _]]]]]]]];
      [exact Hne|discriminate].
  - rewrite parseTopics_eq in Ht.
    destruct (originInv_final (headerOffset rows) (loopRows rows))
      as [Hall _].
    destruct (Hall t Ht) as [j [r [_ [_ [_ [[Hne ->]|[_ [-> _]]]]]]]];
      [apply getCell_trimmed|reflexivity].
  - intros w Hw.
    assert (Hin : In w (allWords (parseTopics rows))).
    { apply In_allWords. exists t. split; assumption. }
    rewrite allWords_parseTopics in Hin. apply In_gridWords in Hin.
    destruct Hin as [k [row [_ Hp]]].
    apply parseWord_Some in Hp. destruct Hp as [Hne ->].
    unfold normalisedWord, wordOfRow. simpl.
    repeat split; try exact Hne; try apply getCell_trimmed.
    exists (getCell row 2). split; [reflexivity|apply getCell_trimmed].
Qed.

(** X9. Appending rows to a non-empty grid keeps what was parsed: the
    topics closed so far stay as they are, at the front; the topic that was
    current can only receive further words at its end; anything else comes
    after it. *)
Theorem appended_rows_extend (rows more : list Row) (Hne : rows <> []) :
  exists closed cur,
    parseTopics rows = pushTopic closed cur
    /\ match cur with
       | Some t =>
           exists extra tail,
             parseTopics (rows ++ more)
             = closed ++ addWords t extra :: tail
       | None =>
           closed = []
           /\ parseTopics (rows ++ more)
              = stateTopics (parseLoop (List.length rows) more initState)
       end.
Proof.
  assert (Hh : headerOffset (rows ++ more) = headerOffset rows).
  { destruct rows as [|r rows]; [contradiction|reflexivity]. }
  pose proof (headerOffset_le rows) as Hle.
  destruct (parseLoop (headerOffset rows) (loopRows rows) initState)
    as [closed cur] eqn:E.
  exists closed, cur. split.
  { rewrite parseTopics_eq. fold (loopRows rows). rewrite E. reflexivity. }
  rewrite parseTopics_eq, Hh, (skipn_prefix _ rows more Hle), parseLoop_app.
  fold (loopRows rows). rewrite E.
  destruct cur as [t|].
  - apply parseLoop_extends.
  - destruct (originInv_final (headerOffset rows) (loopRows rows))
      as [_ Hnone].
    rewrite E in Hnone. destruct (Hnone eq_refl) as [Hc _]. simpl in Hc.
    subst closed. split; [reflexivity|].
    unfold loopRows. rewrite length_skipn.
    replace (headerOffset rows + (List.length rows - headerOffset rows))
      with (List.length rows) by lia.
    reflexivity.
Qed.

Lemma appended_rows_extend_witness :
  exists closed cur,
    parseTopics [ Some [JNum 1; JStr "T1"; JStr "N"; JStr "apple"] ]
    = pushTopic closed cur
    /\ match cur with
       | Some t =>
           exists extra tail,
             parseTopics ([ Some [JNum 1; JStr "T1"; JStr "N"; JStr "apple"] ]
                          ++ [ Some [JNum 2; JStr ""; JStr "Y"; JStr "banana"];
                               Some [JNum 3; JStr "T2"] ])
             = closed ++ addWords t extra :: tail
       | None =>
           closed = []
           /\ parseTopics
                ([ Some [JNum 1; JStr "T1"; JStr "N"; JStr "apple"] ]
                 ++ [ Some [JNum 2; JStr ""; JStr "Y"; JStr "banana"];
                      Some [JNum 3; JStr "T2"] ])
              = stateTopics
                  (parseLoop
                     (List.length
                        [ Some [JNum 1; JStr "T1"; JStr "N"; JStr "apple"] ])
                     [ Some [JNum 2; JStr ""; JStr "Y"; JStr "banana"];
                       Some [JNum 3; JStr "T2"] ] initState)
       end.
Proof.
  apply (appended_rows_extend
           [ Some [JNum 1; JStr "T1"; JStr "N"; JStr "apple"] ]
           [ Some [JNum 2; JStr ""; JStr "Y"; JStr "banana"];
             Some [JNum 3; JStr "T2"] ]).
  discriminate.
Defined.

(** * Properties of the callers *)

Section SheetNames.

Lemma splitComma_nonempty s : splitComma s <> [].
Proof.
  destruct s as [|c s]; simpl; [discriminate|].
  destruct (Ascii.eqb c ","); [discriminate|].
  destruct (splitComma s); discriminate.
Qed.

Lemma splitComma_cons_other c s :
  Ascii.eqb c "," = false ->
  exists piece rest,
    splitComma s = piece :: rest
    /\ splitComma (String c s) = String c piece :: rest.
Proof.
  intros H. simpl. rewrite H.
  destruct (splitComma s) as [|piece rest] eqn:E.
  - exfalso. exact (splitComma_nonempty s E).
  - exists piece, rest. split; reflexivity.
Qed.

Lemma splitComma_noComma s : Forall (fun p => noComma p = true) (splitComma s).
Proof.
  induction s as [|c s IH]; simpl.
  - constructor; [reflexivity|constructor].
  - destruct (Ascii.eqb c ",") eqn:E.
    + constructor; [reflexivity|exact IH].
    + destruct (splitComma s) as [|piece rest]; simpl.
      * constructor; [simpl; rewrite E; reflexivity|constructor].
      * inversion IH; subst. constructor; [|assumption].
        simpl. rewrite E. simpl. assumption.
Qed.

Lemma noComma_trimStart s : noComma s = true -> noComma (trimStart s) = true.
Proof.
  induction s as [|c s IH]; simpl; [reflexivity|].
  intros H. apply andb_true_iff in H. destruct H as [H1 H2].
  destruct (isWhiteSpace c); [apply IH; exact H2|].
  simpl. rewrite H1, H2. reflexivity.
Qed.

Lemma noComma_trimEnd s : noComma s = true -> noComma (trimEnd s) = true.
Proof.
  induction s as [|c s IH]; [reflexivity|].
  intros H. simpl in H. apply andb_true_iff in H. destruct H as [H1 H2].
  rewrite trimEnd_cons. specialize (IH H2).
  destruct (trimEnd s) as [|d r].
  - destruct (isWhiteSpace c); [reflexivity|]. simpl. rewrite H1. reflexivity.
  - change (noComma (String c (String d r)) = true).
    simpl noComma at 1. rewrite H1. exact IH.
Qed.

Lemma noComma_trim s : noComma s = true -> noComma (trim s) = true.
Proof. intros H. apply noComma_trimEnd, noComma_trimStart. exact H. Qed.

Lemma sheetNamesOf_clean p n :
  p <> "" -> In n (sheetNamesOf p) -> cleanName n.
Proof.
  intros Hp Hn. unfold sheetNamesOf in Hn.
  rewrite (proj2 (truthyStr_true p) Hp) in Hn.
  apply filter_In in Hn. destruct Hn as [Hin Ht].
  apply in_map_iff in Hin. destruct Hin as [piece [<- Hpiece]].
  split; [apply truthyStr_true; exact Ht|]. split; [apply trim_idem|].
  apply noComma_trim.
  pose proof (splitComma_noComma p) as F. rewrite Forall_forall in F.
  apply F. exact Hpiece.
Qed.

(** Splitting at the first comma that follows a comma-free prefix. *)
Lemma splitComma_app n s :
  noComma n = true ->
  splitComma (n ++ String "," s) = n :: splitComma s.
Proof.
  induction n as [|c n IH]; simpl; [reflexivity|].
  intros H. apply andb_true_iff in H. destruct H as [H1 H2].
  apply negb_true_iff in H1. rewrite H1, (IH H2). reflexivity.
Qed.

Lemma splitComma_single n : noComma n = true -> splitComma n = [n].
Proof.
  induction n as [|c n IH]; simpl; [reflexivity|].
  intros H. apply andb_true_iff in H. destruct H as [H1 H2].
  apply negb_true_iff in H1. rewrite H1, (IH H2). reflexivity.
Qed.

Lemma trim_leading_space s : trim (String " " s) = trim s.
Proof. reflexivity. Qed.

Lemma filter_trim_clean names :
  Forall cleanName names -> filter truthyStr (map trim names) = names.
Proof.
  induction 1 as [|n names [H1 [H2 _]] _ IH]; simpl; [reflexivity|].
  rewrite H2, (proj2 (truthyStr_true n) H1), IH. reflexivity.
Qed.

(** Splitting the joined names and trimming the pieces gives the names
    back. *)
Lemma split_join_clean names :
  Forall cleanName names -> names <> [] ->
  map trim (splitComma (join ", " names)) = names.
Proof.
  induction 1 as [|n names [H1 [H2 H3]] Hrest IH]; intros Hne;
    [contradiction|].
  destruct names as [|m names].
  - simpl. rewrite (splitComma_single n H3). simpl. rewrite H2. reflexivity.
  - assert (IH' := IH ltac:(discriminate)).
    change (join ", " (n :: m :: names))
      with (n ++ String "," (String " " (join ", " (m :: names))))%string.
    remember (join ", " (m :: names)) as J eqn:EJ. clear EJ.
    rewrite (splitComma_app n _ H3).
    destruct (splitComma J) as [|piece rest] eqn:E.
    { exfalso. exact (splitComma_nonempty _ E). }
    assert (Hsp : splitComma (String " " J) = String " " piece :: rest).
    { simpl splitComma. rewrite E. reflexivity. }
    rewrite Hsp.
    change (map trim (n :: String " " piece :: rest))
      with (trim n :: trim (String " " piece) :: map trim rest).
    rewrite H2, trim_leading_space. f_equal. exact IH'.
Qed.

Lemma join_clean_nonempty names :
  Forall cleanName names -> names <> [] -> join ", " names <> "".
Proof.
  intros H Hne. destruct H as [|n names [H1 _] _]; [contradiction|].
  destruct names; simpl; [exact H1|].
  destruct n; [contradiction|discriminate].
Qed.

Lemma onlySeparators_split p :
  onlySeparators p = forallb allWhite (splitComma p).
Proof.
  induction p as [|c p IH]; simpl; [reflexivity|].
  destruct (Ascii.eqb c ",") eqn:E; simpl.
  - exact IH.
  - rewrite IH. destruct (splitComma p) as [|piece rest] eqn:S.
    + exfalso. exact (splitComma_nonempty p S).
    + simpl. rewrite andb_assoc. reflexivity.
Qed.

Lemma filter_trim_nil pieces :
  filter truthyStr (map trim pieces) = [] <-> forallb allWhite pieces = true.
Proof.
  induction pieces as [|p pieces IH]; simpl; [tauto|].
  unfold truthyStr at 1.
  destruct (String.eqb (trim p) "") eqn:E; simpl.
  - apply String.eqb_eq in E. apply trim_empty_iff in E. rewrite E. exact IH.
  - split; [discriminate|]. intros H. apply andb_true_iff in H.
    destruct H as [H _]. apply trim_empty_iff in H.
    apply String.eqb_neq in E. contradiction.
Qed.

End SheetNames.

(** X10. The sheet names of a request are clean: for a non-empty parameter
    every name is non-empty, trimmed and free of commas; for the empty
    parameter the list is the single empty name, which stands for the
    default sheet. *)
Theorem sheet_names_clean :
  sheetNamesOf "" = [""]
  /\ forall p n, p <> "" -> In n (sheetNamesOf p) -> cleanName n.
Proof.
  split; [reflexivity|]. intros p n. apply sheetNamesOf_clean.
Qed.

Lemma sheet_names_clean_witness :
  cleanName "Unit 1".
Proof.
  apply (proj2 sheet_names_clean " Unit 1 , ,Unit 2" "Unit 1").
  - discriminate.
  - left. reflexivity.
Defined.

(** X11. Saving the sheet names and reading them back is lossless: when
    the request yields at least one name, the string saved in the state,
    [sheetNames.join(', ')], parses to the same list of names. *)
Theorem sheet_names_round_trip (p : string) (H : sheetNamesOf p <> []) :
  sheetNamesOf (sheetNamesString (sheetNamesOf p)) = sheetNamesOf p.
Proof.
  destruct (String.eqb p "") eqn:Ep.
  { apply String.eqb_eq in Ep. subst p. reflexivity. }
  apply String.eqb_neq in Ep.
  assert (F : Forall cleanName (sheetNamesOf p)).
  { apply Forall_forall. intros n. apply sheetNamesOf_clean. exact Ep. }
  unfold sheetNamesString.
  unfold sheetNamesOf at 1.
  rewrite (proj2 (truthyStr_true _) (join_clean_nonempty _ F H)).
  rewrite (split_join_clean _ F H).
  assert (G : forall names, Forall cleanName names ->
                filter truthyStr names = names).
  { induction 1 as [|n names [H1 _] _ IH]; simpl; [reflexivity|].
    rewrite (proj2 (truthyStr_true n) H1), IH. reflexivity. }
  apply G. exact F.
Qed.

Lemma sheet_names_round_trip_witness :
  sheetNamesOf (sheetNamesString (sheetNamesOf " Unit 1 , ,Unit 2"))
  = sheetNamesOf " Unit 1 , ,Unit 2".
Proof.
  apply sheet_names_round_trip. discriminate.
Defined.

(** X12. The list of sheet names is empty exactly when the parameter is
    not empty and holds nothing but commas and whitespace; the route then
    has no first sheet name to refresh. *)
Theorem sheet_names_empty_iff (p : string) :
  sheetNamesOf p = [] <-> p <> "" /\ onlySeparators p = true.
Proof.
  unfold sheetNamesOf. destruct (truthyStr p) eqn:T.
  - apply truthyStr_true in T. rewrite filter_trim_nil, onlySeparators_split.
    tauto.
  - split; [discriminate|]. intros [H _].
    apply truthyStr_true in H. congruence.
Qed.

(** X13. For a token with a valid expiry time, the refresh window covers
    the authentication buffer: whenever the token is no longer taken as
    authenticated it is already due for refresh, and it is both
    authenticated and due for refresh exactly when it expires more than
    five and at most ten minutes from now. *)
Theorem refresh_window_covers_expiry (dateValue : JsVal -> option Z)
    (now expiry : Z) (serverState : ServerState)
    (Htoken : truthy (st_token serverState) = true)
    (Hexp : truthy (st_expiresOn serverState) = true)
    (Hdate : dateValue (st_expiresOn serverState) = Some expiry) :
  (isAuthenticated dateValue now serverState = false ->
   shouldRefreshToken dateValue now serverState = true)
  /\ (isAuthenticated dateValue now serverState
      && shouldRefreshToken dateValue now serverState = true
      <-> (now + 300000 < expiry /\ expiry <= now + 600000)%Z).
Proof.
  unfold isAuthenticated, shouldRefreshToken.
  rewrite Htoken, Hexp, Hdate. simpl negb. simpl orb. cbv iota zeta.
  split.
  - intros H. apply Z.ltb_ge in H. apply Z.leb_le. lia.
  - rewrite andb_true_iff, Z.ltb_lt, Z.leb_le. lia.
Qed.

Lemma refresh_window_covers_expiry_witness :
  let dateValue := fun v => match v with JNum n => Some n | _ => None end in
  let serverState := {| st_token := JStr "tok"; st_expiresOn := JNum 1400000 |} in
  (isAuthenticated dateValue 1000000 serverState = false ->
   shouldRefreshToken dateValue 1000000 serverState = true)
  /\ (isAuthenticated dateValue 1000000 serverState
      && shouldRefreshToken dateValue 1000000 serverState = true
      <-> (1000000 + 300000 < 1400000 /\ 1400000 <= 1000000 + 600000)%Z).
Proof.
  intros dateValue serverState.
  apply (refresh_window_covers_expiry dateValue 1000000 1400000 serverState);
    reflexivity.
Defined.

Section CombineFacts.

Variable dateValue : JsVal -> option Z.

Lemma combineEntry_worksheets ws h o e :
  fst (fst (combineEntry dateValue (ws, h, o) e)) = ws ++ contribution e.
Proof.
  destruct e as [n d]. unfold combineEntry, contribution. simpl fst; simpl snd.
  destruct (truthy (sd_error d)); [reflexivity|]. cbv zeta. simpl.
  destruct (sd_worksheets d); [reflexivity|]. rewrite app_nil_r. reflexivity.
Qed.

Lemma combineEntry_fresh ws h o e :
  snd (fst (combineEntry dateValue (ws, h, o) e))
  = h || (usable (snd e) && negb (truthy (sd_cached (snd e)))).
Proof.
  destruct e as [n d]. unfold combineEntry, usable. simpl snd.
  destruct (truthy (sd_error d)); simpl.
  - rewrite orb_false_r. reflexivity.
  - destruct (truthy (sd_cached d)); simpl;
      [rewrite orb_false_r|rewrite orb_true_r]; reflexivity.
Qed.

Lemma combineEntry_oldest ws h o e :
  snd (combineEntry dateValue (ws, h, o) e)
  = if usable (snd e) && truthy (sd_cachedAt (snd e))
    then if negb (truthy o) || dateLt dateValue (sd_cachedAt (snd e)) o
         then sd_cachedAt (snd e) else o
    else o.
Proof.
  destruct e as [n d]. unfold combineEntry, usable. simpl snd.
  destruct (truthy (sd_error d)); simpl; [reflexivity|].
  destruct (truthy (sd_cachedAt d)); reflexivity.
Qed.

Lemma fold_left_cons {A B : Type} (f : A -> B -> A) x l a :
  fold_left f (x :: l) a = fold_left f l (f a x).
Proof. reflexivity. Qed.

Lemma fold_combine_worksheets l : forall st,
  fst (fst (fold_left (combineEntry dateValue) l st))
  = fst (fst st) ++ flat_map contribution l.
Proof.
  induction l as [|e l IH]; intros [[ws h] o].
  - simpl. rewrite app_nil_r. reflexivity.
  - rewrite fold_left_cons, IH, combineEntry_worksheets. simpl.
    rewrite <- app_assoc. reflexivity.
Qed.

Lemma fold_combine_fresh l : forall st,
  snd (fst (fold_left (combineEntry dateValue) l st))
  = snd (fst st)
    || existsb (fun e => usable (snd e) && negb (truthy (sd_cached (snd e)))) l.
Proof.
  induction l as [|e l IH]; intros [[ws h] o].
  - simpl. rewrite orb_false_r. reflexivity.
  - rewrite fold_left_cons, IH, combineEntry_fresh. simpl.
    rewrite orb_assoc. reflexivity.
Qed.

Lemma dateLt_irrefl v : dateLt dateValue v v = false.
Proof.
  unfold dateLt. destruct (dateValue v); [apply Z.ltb_irrefl|reflexivity].
Qed.

Lemma dateLt_below a b c :
  dateLt dateValue a b = true -> dateLt dateValue c b = false ->
  dateLt dateValue c a = false.
Proof.
  unfold dateLt.
  destruct (dateValue a) as [x|], (dateValue b) as [y|],
    (dateValue c) as [z|]; try discriminate; try reflexivity.
  rewrite Z.ltb_lt, !Z.ltb_ge. lia.
Qed.

Lemma oldestInv_step seen ws h o e :
  oldestInv dateValue seen o ->
  oldestInv dateValue (seen ++ [e])
            (snd (combineEntry dateValue (ws, h, o) e)).
Proof.
  intros I. rewrite combineEntry_oldest.
  destruct (usable (snd e) && truthy (sd_cachedAt (snd e))) eqn:G.
  - apply andb_true_iff in G. destruct G as [Gu Gc].
    destruct I as [[Ho Hnone]|[Ho [[e0 [He0 [Hu0 Heq]]] Hmin]]].
    + rewrite Ho. simpl. right. split; [exact Gc|]. split.
      * exists e. split; [apply in_or_app; right; left; reflexivity|].
        split; [exact Gu|reflexivity].
      * intros e' He' Hu' Hc'. apply in_app_or in He'.
        destruct He' as [He'|[<-|[]]]; [|apply dateLt_irrefl].
        rewrite (Hnone e' He' Hu') in Hc'. discriminate Hc'.
    + rewrite Ho. simpl.
      destruct (dateLt dateValue (sd_cachedAt (snd e)) o) eqn:L.
      * right. split; [exact Gc|]. split.
        { exists e. split; [apply in_or_app; right; left; reflexivity|].
          split; [exact Gu|reflexivity]. }
        intros e' He' Hu' Hc'. apply in_app_or in He'.
        destruct He' as [He'|[<-|[]]]; [|apply dateLt_irrefl].
        apply (dateLt_below _ o); [exact L|]. apply Hmin; assumption.
      * right. split; [exact Ho|]. split.
        { exists e0. split; [apply in_or_app; left; exact He0|].
          split; assumption. }
        intros e' He' Hu' Hc'. apply in_app_or in He'.
        destruct He' as [He'|[<-|[]]]; [apply Hmin; assumption|exact L].
  - destruct I as [[Ho Hnone]|[Ho [[e0 [He0 [Hu0 Heq]]] Hmin]]].
    + left. split; [exact Ho|]. intros e' He' Hu'. apply in_app_or in He'.
      destruct He' as [He'|[<-|[]]]; [apply Hnone; assumption|].
      rewrite Hu' in G. exact G.
    + right. split; [exact Ho|]. split.
      { exists e0. split; [apply in_or_app; left; exact He0|].
        split; assumption. }
      intros e' He' Hu' Hc'. apply in_app_or in He'.
      destruct He' as [He'|[<-|[]]]; [apply Hmin; assumption|].
      rewrite Hu', Hc' in G. discriminate G.
Qed.

Lemma fold_combine_oldest l : forall seen st,
  oldestInv dateValue seen (snd st) ->
  oldestInv dateValue (seen ++ l)
            (snd (fold_left (combineEntry dateValue) l st)).
Proof.
  induction l as [|e l IH]; intros seen [[ws h] o] I.
  - simpl. rewrite app_nil_r. exact I.
  - replace (seen ++ e :: l) with ((seen ++ [e]) ++ l)
      by (rewrite <- app_assoc; reflexivity).
    rewrite fold_left_cons. apply IH. apply oldestInv_step. exact I.
Qed.

Lemma combineSheetData_eq now sheetsData :
  combineSheetData dateValue now sheetsData
  = let st := fold_left (combineEntry dateValue) sheetsData ([], false, JNull) in
    {| c_worksheets := fst (fst st);
       c_cached := negb (snd (fst st));
       c_fetchedAt := now;
       c_sheets := map fst sheetsData;
       c_cachedAt :=
         if truthy (snd st) && negb (snd (fst st)) then snd st
         else JUndefined |}.
Proof.
  unfold combineSheetData. cbv zeta.
  destruct (fold_left (combineEntry dateValue) sheetsData ([], false, JNull))
    as [[ws h] o].
  reflexivity.
Qed.

End CombineFacts.

(** X14. The combined data is marked as cached exactly when every sheet
    that carries no error is itself marked as cached: one freshly fetched
    sheet makes the whole answer fresh, and failed sheets do not count. *)
Theorem combined_cached_flag (dateValue : JsVal -> option Z) (now : string)
    (sheetsData : list (string * SheetData)) :
  c_cached (combineSheetData dateValue now sheetsData) = true
  <-> forall e, In e sheetsData -> usable (snd e) = true ->
        truthy (sd_cached (snd e)) = true.
Proof.
  rewrite combineSheetData_eq. simpl c_cached.
  rewrite fold_combine_fresh. simpl. rewrite negb_true_iff. split.
  - intros H e He Hu.
    destruct (truthy (sd_cached (snd e))) eqn:C; [reflexivity|].
    assert (X : existsb (fun e0 => usable (snd e0)
                                   && negb (truthy (sd_cached (snd e0))))
                        sheetsData = true).
    { apply existsb_exists. exists e. rewrite Hu, C. split; [exact He|].
      reflexivity. }
    congruence.
  - intros H.
    destruct (existsb _ sheetsData) eqn:X; [|reflexivity].
    apply existsb_exists in X. destruct X as [e [He Hx]].
    apply andb_true_iff in Hx. destruct Hx as [Hu Hc].
    rewrite (H e He Hu) in Hc. discriminate Hc.
Qed.

(** X15. Combining keeps every worksheet and its order: the worksheets the
    combined entries were copied from are, in order, the worksheets of the
    sheets without error; a sheet with an error contributes one error
    entry and none of its worksheets; and the sheet list names every
    sheet. *)
Theorem combined_worksheets (dateValue : JsVal -> option Z) (now : string)
    (sheetsData : list (string * SheetData)) :
  let combined := combineSheetData dateValue now sheetsData in
  flat_map sourceOf (c_worksheets combined)
  = flat_map usableWorksheets sheetsData
  /\ List.length (c_worksheets combined)
     = list_sum (map (fun e => if usable (snd e)
                               then List.length (usableWorksheets e)
                               else 1) sheetsData)
  /\ c_sheets combined = map fst sheetsData.
Proof.
  cbv zeta. rewrite combineSheetData_eq. simpl.
  rewrite fold_combine_worksheets. simpl.
  split; [|split; [|reflexivity]].
  - induction sheetsData as [|e l IH]; [reflexivity|]. simpl.
    rewrite flat_map_app, IH. f_equal.
    unfold contribution, usableWorksheets, usable.
    destruct (truthy (sd_error (snd e))); simpl; [reflexivity|].
    destruct (sd_worksheets (snd e)) as [ws|]; [|reflexivity].
    induction ws as [|w ws IHw]; [reflexivity|]. simpl. rewrite IHw.
    reflexivity.
  - induction sheetsData as [|e l IH]; [reflexivity|]. simpl.
    rewrite length_app, IH. f_equal.
    unfold contribution, usableWorksheets, usable.
    destruct (truthy (sd_error (snd e))); simpl; [reflexivity|].
    destruct (sd_worksheets (snd e)); [apply length_map|reflexivity].
Qed.

(** X16. The cache time of the combined data is set only when the combined
    data is marked as cached; it is then the cache time of one of the
    sheets without error, and no such sheet has an earlier one (as
    [new Date(a) < new Date(b)] compares them); it stays unset when none of
    those sheets has a cache time. *)
Theorem combined_oldest_cache (dateValue : JsVal -> option Z) (now : string)
    (sheetsData : list (string * SheetData)) :
  let combined := combineSheetData dateValue now sheetsData in
  (c_cached combined = false -> c_cachedAt combined = JUndefined)
  /\ (c_cached combined = true ->
      (c_cachedAt combined = JUndefined
       /\ forall e, In e sheetsData -> usable (snd e) = true ->
            truthy (sd_cachedAt (snd e)) = false)
      \/ (truthy (c_cachedAt combined) = true
          /\ (exists e, In e sheetsData /\ usable (snd e) = true
                        /\ c_cachedAt combined = sd_cachedAt (snd e))
          /\ forall e, In e sheetsData -> usable (snd e) = true ->
               truthy (sd_cachedAt (snd e)) = true ->
               dateLt dateValue (sd_cachedAt (snd e)) (c_cachedAt combined)
               = false)).
Proof.
  cbv zeta. rewrite combineSheetData_eq. simpl.
  pose proof (fold_combine_oldest dateValue sheetsData []
                ([], false, JNull)) as I.
  simpl in I.
  assert (I0 : oldestInv dateValue [] JNull).
  { left. split; [reflexivity|]. intros e []. }
  specialize (I I0).
  destruct (fold_left (combineEntry dateValue) sheetsData ([], false, JNull))
    as [[ws h] o].
  simpl in *. split.
  - intros H. rewrite H, andb_false_r. reflexivity.
  - intros H. rewrite H, andb_true_r.
    destruct I as [[Ho Hnone]|[Ho [Hex Hmin]]].
    + left. rewrite Ho. split; [reflexivity|exact Hnone].
    + right. rewrite Ho. split; [exact Ho|]. split; assumption.
Qed.

Section RouteFacts.

Variable cacheLookup : string -> option SheetData.

Lemma sortSheets_force_acc names : forall cached missing,
  fold_left
    (fun acc sheetName =>
       let '(cachedSheets, missingSheets) := acc in
       match cacheLookup sheetName with
       | Some cachedData =>
           if negb true
           then (cachedSheets
                   ++ [(if truthyStr sheetName then sheetName else "default",
                        cachedData)],
                 missingSheets)
           else (cachedSheets, missingSheets ++ [sheetName])
       | None => (cachedSheets, missingSheets ++ [sheetName])
       end)
    names (cached, missing)
  = (cached, missing ++ names).
Proof.
  induction names as [|n names IH]; intros cached missing.
  - simpl. rewrite app_nil_r. reflexivity.
  - rewrite fold_left_cons.
    destruct (cacheLookup n); simpl negb; cbv iota; rewrite IH, <- app_assoc;
      reflexivity.
Qed.

Lemma sortSheets_cache_acc names : forall cached missing,
  fold_left
    (fun acc sheetName =>
       let '(cachedSheets, missingSheets) := acc in
       match cacheLookup sheetName with
       | Some cachedData =>
           if negb false
           then (cachedSheets
                   ++ [(if truthyStr sheetName then sheetName else "default",
                        cachedData)],
                 missingSheets)
           else (cachedSheets, missingSheets ++ [sheetName])
       | None => (cachedSheets, missingSheets ++ [sheetName])
       end)
    names (cached, missing)
  = (cached ++ foundSheets cacheLookup names,
     missing ++ absentSheets cacheLookup names).
Proof.
  induction names as [|n names IH]; intros cached missing.
  - simpl. rewrite !app_nil_r. reflexivity.
  - rewrite fold_left_cons. unfold foundSheets, absentSheets. simpl.
    unfold foundSheets, absentSheets in IH.
    destruct (cacheLookup n) as [d|]; simpl negb; cbv iota; rewrite IH;
      unfold sheetKey; rewrite <- ?app_assoc; reflexivity.
Qed.

Lemma sortSheets_force names : sortSheets true cacheLookup names = ([], names).
Proof. unfold sortSheets. apply sortSheets_force_acc. Qed.

Lemma sortSheets_cache names :
  sortSheets false cacheLookup names
  = (foundSheets cacheLookup names, absentSheets cacheLookup names).
Proof. unfold sortSheets. apply sortSheets_cache_acc. Qed.

End RouteFacts.

(** X17. On a forced refresh nothing is taken from the cache: every
    requested sheet is treated as missing; without authentication the
    request is rejected, and with it only the first sheet name is fetched
    and the answer is built from that sheet alone. *)
Theorem force_refresh_decision (authenticated : bool)
    (cacheLookup : string -> option SheetData) (sheetNames : list string) :
  decideRoute true authenticated cacheLookup sheetNames
  = if authenticated then FetchSheets [hd_error sheetNames] []
    else match sheetNames with
         | [] => Reject401Refresh
         | _ :: _ => Reject401Missing sheetNames
         end.
Proof.
  unfold decideRoute. rewrite sortSheets_force.
  destruct sheetNames as [|n names]; destruct authenticated; reflexivity.
Qed.


(** X19. The route never answers with cached data and the message that
    authentication is needed to refresh: the branch that would do so asks
    for a non-empty set of cached sheets on a forced refresh, where that
    set is always empty. *)
Theorem cached_with_message_unreachable (forceRefresh authenticated : bool)
    (cacheLookup : string -> option SheetData) (sheetNames : list string) :
  forall cachedSheets,
    decideRoute forceRefresh authenticated cacheLookup sheetNames
    <> ServeCachedWithMessage cachedSheets.
Proof.
  intros cachedSheets. unfold decideRoute. destruct forceRefresh.
  - rewrite sortSheets_force.
    destruct sheetNames as [|n names]; destruct authenticated; discriminate.
  - rewrite sortSheets_cache.
    destruct (absentSheets cacheLookup sheetNames) as [|m missing];
      [discriminate|].
    destruct authenticated; simpl; [discriminate|].
    rewrite andb_false_r. discriminate.
Qed.

(** ** Worked instances *)

Lemma topics_in_grid_order_witness :
  let row := Some [JNum 1; JStr "T1"; JStr "N"; JStr "apple"] in
  let t := {| name := "T1"; startRow := 2; words := [wordOfRow row 2];
              statistics := None |} in
  let rows := [Some [JStr "Order"; JStr "Topic"]; row] in
  headerOffset rows < startRow t /\ startRow t <= List.length rows
  /\ forall w, In w (words t) ->
       startRow t <= rowNumber w /\ rowNumber w <= List.length rows.
Proof.
  intros row t rows.
  apply (proj1 (proj2 (topics_in_grid_order rows)) t).
  left. reflexivity.
Defined.

Lemma output_is_normalised_witness :
  let row := Some [JNum 1; JStr "  T1 "; JStr " N"; JStr " apple  "] in
  let t := {| name := "T1"; startRow := 1; words := [wordOfRow row 1];
              statistics := None |} in
  name t <> "" /\ trim (name t) = name t
  /\ forall w, In w (words t) -> normalisedWord w.
Proof.
  intros row t.
  apply (output_is_normalised [row] t).
  left. reflexivity.
Defined.

Lemma combined_oldest_cache_witness :
  let dateValue := fun v => match v with JNum n => Some n | _ => None end in
  let sheet at_ :=
    {| sd_error := JUndefined; sd_cached := JBool true;
       sd_cachedAt := JNum at_; sd_worksheets := Some [] |} in
  let sheetsData := [("A", sheet 700%Z); ("B", sheet 500%Z)] in
  let combined := combineSheetData dateValue "now" sheetsData in
  (c_cachedAt combined = JUndefined
   /\ forall e, In e sheetsData -> usable (snd e) = true ->
        truthy (sd_cachedAt (snd e)) = false)
  \/ (truthy (c_cachedAt combined) = true
      /\ (exists e, In e sheetsData /\ usable (snd e) = true
                    /\ c_cachedAt combined = sd_cachedAt (snd e))
      /\ forall e, In e sheetsData -> usable (snd e) = true ->
           truthy (sd_cachedAt (snd e)) = true ->
           dateLt dateValue (sd_cachedAt (snd e)) (c_cachedAt combined)
           = false).
Proof.
  intros dateValue sheet sheetsData combined.
  apply (proj2 (combined_oldest_cache dateValue "now" sheetsData)).
  reflexivity.
Defined.

Example combine_two_cached_sheets :
  let dateValue := fun v => match v with JNum n => Some n | _ => None end in
  let sheet at_ :=
    {| sd_error := JUndefined; sd_cached := JBool true;
       sd_cachedAt := JNum at_; sd_worksheets := Some [Untouched failedSheet] |} in
  let combined :=
    combineSheetData dateValue "now" [("A", sheet 700%Z); ("B", sheet 500%Z)] in
  c_cached combined = true /\ c_cachedAt combined = JNum 500
  /\ c_sheets combined = ["A"; "B"]
  /\ c_worksheets combined
     = [SheetEntry (Untouched failedSheet) (JStr "[A] X") "A";
        SheetEntry (Untouched failedSheet) (JStr "[B] X") "B"].
Proof. repeat split; reflexivity. Qed.

Example sheet_names_examples :
  sheetNamesOf "Unit 1, Unit 2" = ["Unit 1"; "Unit 2"]
  /\ sheetNamesOf " , " = []
  /\ sheetNamesString ["Unit 1"; "Unit 2"] = "Unit 1, Unit 2".
Proof. repeat split; reflexivity. Qed.
